(** * Broadlink climate devices: command framing and state codecs

    A shallow embedding of [broadlink/climate.py]: the Hysen heating
    controller ([class hysen]) and the Tornado air conditioner
    ([class tornado]).  Bytes and Python integers are [Z]; byte strings,
    bytearrays and lists of integers are [list Z]; the floats the code
    computes are halves of small integers, hence exact, and are modelled as
    canonical rationals [Qc]; dictionaries with string keys are
    [gmap string pyval]; exceptions are an explicit error type; device
    traffic and console output are recorded in a trace threaded through a
    small state-and-error monad. *)

From Stdlib Require Import ZArith QArith Qcanon Lia.
From stdpp Require Import base numbers option list strings gmap pretty.

Local Open Scope Z_scope.

(** ** Python values, exceptions and sequence operations *)

Module py.

(** The dynamically typed values that flow through the A/C dictionaries. *)
Inductive pyval : Type :=
| VNone
| VBool (b : bool)
| VInt (z : Z)
| VFloat (q : Qc)
| VStr (s : string)
| VBytes (l : list Z).

(** Exceptions.  [ValueError] keeps the constructor's arguments; a message
    built with [str.format] is kept as the template followed by the
    formatted argument.  [CollaboratorError] stands for whatever the
    transport, [check_error] or [decrypt] raise. *)
Inductive exn : Type :=
| IndexError
| KeyError (key : string)
| ValueError (args : list pyval)
| TypeError
| AssertionError
| UnboundLocalError (name : string)
| OverflowError
| CollaboratorError (what : string).

Inductive result (A : Type) : Type :=
| Ok (a : A)
| Raise (e : exn).
Arguments Ok {A} a.
Arguments Raise {A} e.

#[global] Instance result_ret : MRet result := fun A a => Ok a.
#[global] Instance result_bind : MBind result := fun A B f r =>
  match r with
  | Ok a => f a
  | Raise e => Raise e
  end.

Definition is_ok {A} (r : result A) : bool :=
  match r with Ok _ => true | Raise _ => false end.

(** [len(l)] *)
Definition len {A} (l : list A) : Z := Z.of_nat (length l).

(** [l[i]], with Python's negative indices and [IndexError]. *)
Definition index {A} (l : list A) (i : Z) : result A :=
  let j := if i <? 0 then i + len l else i in
  if (0 <=? j) && (j <? len l)
  then match l !! Z.to_nat j with
       | Some x => Ok x
       | None => Raise IndexError
       end
  else Raise IndexError.

(** Bound of a slice, clipped the way Python clips it. *)
Definition clip (n i : Z) : Z :=
  if i <? 0 then Z.max 0 (i + n) else Z.min i n.

(** [l[lo:hi]] *)
Definition slice {A} (l : list A) (lo hi : Z) : list A :=
  let a := clip (len l) lo in
  let b := clip (len l) hi in
  take (Z.to_nat (b - a)) (drop (Z.to_nat a) l).

(** [l[lo:]] *)
Definition slice_from {A} (l : list A) (lo : Z) : list A :=
  slice l lo (len l).

(** [l[:hi]] *)
Definition slice_to {A} (l : list A) (hi : Z) : list A :=
  slice l 0 hi.

Definition is_byte (x : Z) : bool := (0 <=? x) && (x <? 256).

Definition is_bytes (l : list Z) : bool := forallb is_byte l.

Definition byte_range_error : exn :=
  ValueError [VStr "byte must be in range(0, 256)"].

(** [bytearray(l)] for a list of integers [l]. *)
Definition bytearray (l : list Z) : result (list Z) :=
  if is_bytes l then Ok l else Raise byte_range_error.

(** [b.append(x)] *)
Definition append (b : list Z) (x : Z) : result (list Z) :=
  if is_byte x then Ok (b ++ [x]) else Raise byte_range_error.

(** [b.extend(l)] *)
Definition extend (b l : list Z) : result (list Z) :=
  if is_bytes l then Ok (b ++ l) else Raise byte_range_error.

(** [range(lo, hi)] *)
Definition range (lo hi : Z) : list Z :=
  (fun k => lo + Z.of_nat k) <$> seq 0 (Z.to_nat (hi - lo)).

(** A [for] loop that threads an accumulator and stops at the first
    exception. *)
Fixpoint for_each {A S} (body : S -> A -> result S) (s : S) (l : list A)
  : result S :=
  match l with
  | [] => Ok s
  | x :: l' => s' ← body s x; for_each body s' l'
  end.

(** [int(x)] for a float: truncation towards zero. *)
Definition int_of_float (q : Qc) : Z :=
  Z.quot (Qnum (this q)) (Z.pos (Qden (this q))).

(** A float product overflows to infinity when its exact value reaches
    2^1024 in magnitude; for [x * 2] with [x] a finite double this is
    exactly the case in which the result is not finite. *)
Definition double_limit : Z := 2 ^ 1024.

Definition overflows (q : Qc) : bool :=
  bool_decide (Qc_of_Z double_limit <= q)%Qc
  || bool_decide (q <= Qc_of_Z (- double_limit))%Qc.

(** [int(x * y)] for finite floats whose exact product is [q]: [int]
    raises [OverflowError] on an infinity. *)
Definition int_of_product (q : Qc) : result Z :=
  if overflows q then Raise OverflowError else Ok (int_of_float q).

(** [x / 2.0] for an integer [x]. *)
Definition half (x : Z) : Qc := Q2Qc (x # 2).

(** [x] is a whole number, Python's [x % 1 == 0]. *)
Definition is_whole (q : Qc) : bool :=
  Qnum (this q) mod Z.pos (Qden (this q)) =? 0.

(** Truth value of an object. *)
Definition truthy (v : pyval) : bool :=
  match v with
  | VNone => false
  | VBool b => b
  | VInt z => negb (z =? 0)
  | VFloat q => negb (bool_decide (q = 0%Qc))
  | VStr s => negb (String.eqb s "")
  | VBytes l => negb (len l =? 0)
  end.

(** The number a value denotes in arithmetic and ordering, when it is one
    ([bool] is a subtype of [int]). *)
Definition number (v : pyval) : result Qc :=
  match v with
  | VBool b => Ok (Qc_of_Z (if b then 1 else 0))
  | VInt z => Ok (Qc_of_Z z)
  | VFloat q => Ok q
  | _ => Raise TypeError
  end.

(** The integer a value denotes in bit operations. *)
Definition integer (v : pyval) : result Z :=
  match v with
  | VBool b => Ok (if b then 1 else 0)
  | VInt z => Ok z
  | _ => Raise TypeError
  end.

(** [v == w] *)
Definition eqb (v w : pyval) : bool :=
  match v, w with
  | VNone, VNone => true
  | VStr s, VStr t => String.eqb s t
  | VBytes l, VBytes m => bool_decide (l = m)
  | (VBool _ | VInt _ | VFloat _), (VBool _ | VInt _ | VFloat _) =>
      match number v, number w with
      | Ok a, Ok b => bool_decide (a = b)
      | _, _ => false
      end
  | _, _ => false
  end.

(** [d[k]] on a dictionary. *)
Definition getitem (d : gmap string pyval) (k : string) : result pyval :=
  match d !! k with
  | Some v => Ok v
  | None => Raise (KeyError k)
  end.

(** Two lower-case hexadecimal digits, ['{:02x}'.format(x)] for a byte. *)
Definition hex_digit (d : Z) : string :=
  match d with
  | 0 => "0" | 1 => "1" | 2 => "2" | 3 => "3" | 4 => "4" | 5 => "5"
  | 6 => "6" | 7 => "7" | 8 => "8" | 9 => "9" | 10 => "a" | 11 => "b"
  | 12 => "c" | 13 => "d" | 14 => "e" | _ => "f"
  end.

Definition format_02x (x : Z) : string :=
  hex_digit (x / 16 mod 16) +:+ hex_digit (x mod 16).

End py.

Import py.

(** ** What [climate.py] imports

    [calculate_crc16] comes from [helpers], [check_error] from
    [exceptions], and [send_packet] and [decrypt] are methods of the base
    class [device]; none of them is defined in [climate.py], so they are
    taken as parameters.  The response of the device may depend on
    everything that happened before, so [send_packet] sees the trace.
    [float_str] is Python's [str] on floats. *)

Inductive event : Type :=
| Sent (command : Z) (packet : list Z)
| Printed (line : string).

Class imports : Type := {
  calculate_crc16 : list Z -> Z;
  send_packet : list event -> Z -> list Z -> result (list Z);
  check_error : list Z -> result unit;
  decrypt : list Z -> result (list Z);
  float_str : Qc -> string
}.

(** Computations that talk to the device or print: a result together with
    the extended trace. *)
Definition io (A : Type) : Type := list event -> result A * list event.

#[global] Instance io_ret : MRet io := fun A a tr => (Ok a, tr).
#[global] Instance io_bind : MBind io := fun A B f m tr =>
  match m tr with
  | (Ok a, tr') => f a tr'
  | (Raise e, tr') => (Raise e, tr')
  end.

Definition lift {A} (r : result A) : io A := fun tr => (r, tr).

Definition transmit `{imports} (command : Z) (packet : list Z) : io (list Z) :=
  fun tr => (send_packet tr command packet, tr ++ [Sent command packet]).

Definition print (line : string) : io unit :=
  fun tr => (Ok tt, tr ++ [Printed line]).

(** The packets handed to [send_packet] in a trace. *)
Definition sent_packets (tr : list event) : list (list Z) :=
  omap (fun e => match e with Sent _ p => Some p | Printed _ => None end) tr.

(** ** [class hysen]: the heating controller *)

Module hysen.

Section with_imports.
Context `{imports}.

(** [send_request], lines 24-32: the length byte (the payload length plus
    two for the CRC), a zero byte, the payload, the CRC low byte first. *)
Definition build_request (input_payload : list Z) : result (list Z) :=
  let crc := calculate_crc16 input_payload in
  request_payload ← bytearray [len input_payload + 2; 0x00];
  request_payload ← extend request_payload input_payload;
  request_payload ← append request_payload (Z.land crc 0xFF);
  request_payload ← append request_payload (Z.land (Z.shiftr crc 8) 0xFF);
  Ok request_payload.

Definition length_error : exn :=
  ValueError [VStr "hysen_response_error";
              VStr "first byte of response is not length"].

Definition crc_error : exn :=
  ValueError [VStr "hysen_response_error";
              VStr "CRC check on response failed"].

(** [send_request], lines 40-47: the check of the decrypted response. *)
Definition parse_response (response_payload : list Z) : result (list Z) :=
  response_payload_len ← index response_payload 0;
  if response_payload_len + 2 >? len response_payload
  then Raise length_error
  else
    let crc := calculate_crc16 (slice response_payload 2 response_payload_len) in
    lo ← index response_payload response_payload_len;
    if lo =? Z.land crc 0xFF
    then
      hi ← index response_payload (response_payload_len + 1);
      if hi =? Z.land (Z.shiftr crc 8) 0xFF
      then Ok (slice response_payload 2 response_payload_len)
      else Raise crc_error
    else Raise crc_error.

Definition send_request (input_payload : list Z) : io (list Z) :=
  request_payload ← lift (build_request input_payload);
  response ← transmit 0x6a request_payload;
  _ ← lift (check_error (slice response 0x22 0x24));
  response_payload ← lift (decrypt (slice_from response 0x38));
  lift (parse_response response_payload).

(** One entry of the timer schedule,
    [{'start_hour': _, 'start_minute': _, 'temp': _}]. *)
Record schedule_entry : Type := {
  start_hour : Z;
  start_minute : Z;
  temp : Qc
}.

(** The dictionary [get_full_status] returns, one field per key. *)
Record full_status : Type := {
  remote_lock : Z;
  power : Z;
  active : Z;
  temp_manual : Z;
  room_temp : Qc;
  thermostat_temp : Qc;
  auto_mode : Z;
  loop_mode : Z;
  sensor : Z;
  osv : Z;
  dif : Z;
  svh : Z;
  svl : Z;
  room_temp_adj : Qc;
  fre : Z;
  poweron : Z;
  unknown : Z;
  external_temp : Qc;
  hour : Z;
  min : Z;
  sec : Z;
  dayofweek : Z;
  weekday : list schedule_entry;
  weekend : list schedule_entry
}.

(** Line 94 and line 100: the schedule entry of index [i]. *)
Definition read_entry (payload : list Z) (i : Z) : result schedule_entry :=
  h ← index payload (2 * i + 23);
  m ← index payload (2 * i + 24);
  t ← index payload (i + 39);
  Ok {| start_hour := h; start_minute := m; temp := half t |}.

(** Lines 79-81: the calibration offset and its correction. *)
Definition decode_room_temp_adj (hi lo : Z) : Qc :=
  let adj := half (Z.shiftl hi 8 + lo) in
  if bool_decide (Qc_of_Z 32767 < adj)%Qc
  then (Qc_of_Z 32767 - adj)%Qc
  else adj.

(** [get_full_status], lines 65-103, on the payload [send_request]
    returned. *)
Definition decode_full_status (payload : list Z) : result full_status :=
  p3 ← index payload 3;
  p4 ← index payload 4;
  p5 ← index payload 5;
  p6 ← index payload 6;
  p7 ← index payload 7;
  p8 ← index payload 8;
  p9 ← index payload 9;
  p10 ← index payload 10;
  p11 ← index payload 11;
  p12 ← index payload 12;
  p13 ← index payload 13;
  p14 ← index payload 14;
  p15 ← index payload 15;
  p16 ← index payload 16;
  p17 ← index payload 17;
  p18 ← index payload 18;
  p19 ← index payload 19;
  p20 ← index payload 20;
  p21 ← index payload 21;
  p22 ← index payload 22;
  weekday ← mapM (read_entry payload) (range 0 6);
  weekend ← mapM (read_entry payload) (range 6 8);
  Ok {| remote_lock := Z.land p3 1;
        power := Z.land p4 1;
        active := Z.land (Z.shiftr p4 4) 1;
        temp_manual := Z.land (Z.shiftr p4 6) 1;
        room_temp := half (Z.land p5 255);
        thermostat_temp := half (Z.land p6 255);
        auto_mode := Z.land p7 15;
        loop_mode := Z.land (Z.shiftr p7 4) 15;
        sensor := p8;
        osv := p9;
        dif := p10;
        svh := p11;
        svl := p12;
        room_temp_adj := decode_room_temp_adj p13 p14;
        fre := p15;
        poweron := p16;
        unknown := p17;
        external_temp := half (Z.land p18 255);
        hour := p19;
        min := p20;
        sec := p21;
        dayofweek := p22;
        weekday := weekday;
        weekend := weekend |}.

Definition get_full_status : io full_status :=
  payload ← send_request [0x01; 0x03; 0x00; 0x00; 0x00; 0x16];
  lift (decode_full_status payload).

(** [set_advanced], lines 142-144: [int(adj * 2)] of the float [adj] is
    computed while the list is built, before [bytearray] checks it. *)
Definition set_advanced (loop_mode sensor osv dif svh svl : Z) (adj : Qc)
    (fre poweron : Z) : io (list Z) :=
  adj2 ← lift (int_of_product (adj * Qc_of_Z 2)%Qc);
  input_payload ← lift (bytearray
    [0x01; 0x10; 0x00; 0x02; 0x00; 0x05; 0x0a; loop_mode; sensor; osv; dif;
     svh; svl; Z.land (Z.shiftr adj2 8) 0xff; Z.land adj2 0xff; fre; poweron]);
  send_request input_payload.

(** [set_schedule], lines 182-201: the command bytes. *)
Definition schedule_times (entries : list schedule_entry)
    (input_payload : list Z) (i : Z) : result (list Z) :=
  e ← index entries i;
  input_payload ← append input_payload (start_hour e);
  append input_payload (start_minute e).

Definition schedule_temp (entries : list schedule_entry)
    (input_payload : list Z) (i : Z) : result (list Z) :=
  e ← index entries i;
  append input_payload (int_of_float (temp e * Qc_of_Z 2)%Qc).

Definition schedule_payload (weekday weekend : list schedule_entry)
  : result (list Z) :=
  input_payload ← bytearray [0x01; 0x10; 0x00; 0x0a; 0x00; 0x0c; 0x18];
  input_payload ← for_each (schedule_times weekday) input_payload (range 0 6);
  input_payload ← for_each (schedule_times weekend) input_payload (range 0 2);
  input_payload ← for_each (schedule_temp weekday) input_payload (range 0 6);
  input_payload ← for_each (schedule_temp weekend) input_payload (range 0 2);
  Ok input_payload.

Definition set_schedule (weekday weekend : list schedule_entry)
  : io (list Z) :=
  input_payload ← lift (schedule_payload weekday weekend);
  send_request input_payload.

(** [get_temp], lines 51-52, and [get_external_temp], lines 56-57: what
    is read from the payload [send_request] returned. *)
Definition decode_temp (payload : list Z) : result Qc :=
  b ← index payload 0x05; Ok (half b).

Definition decode_external_temp (payload : list Z) : result Qc :=
  b ← index payload 18; Ok (half b).

Definition get_temp : io Qc :=
  request ← lift (bytearray [0x01; 0x03; 0x00; 0x00; 0x00; 0x08]);
  payload ← send_request request;
  lift (decode_temp payload).

Definition get_external_temp : io Qc :=
  request ← lift (bytearray [0x01; 0x03; 0x00; 0x00; 0x00; 0x08]);
  payload ← send_request request;
  lift (decode_external_temp payload).

(** [set_mode], lines 115-116. *)
Definition mode_command (auto_mode loop_mode sensor : Z) : list Z :=
  let mode_byte := Z.shiftl (loop_mode + 1) 4 + auto_mode in
  [0x01; 0x06; 0x00; 0x02; mode_byte; sensor].

Definition set_mode (auto_mode loop_mode sensor : Z) : io (list Z) :=
  request ← lift (bytearray (mode_command auto_mode loop_mode sensor));
  send_request request.

(** [switch_to_auto] and [switch_to_manual], lines 148-154; [sensor] takes
    its default value. *)
Definition switch_to_auto : io (list Z) := set_mode 1 0 0.

Definition switch_to_manual : io (list Z) := set_mode 0 0 0.

(** [set_temp], line 159: [int(temp * 2)] of the float [temp] is computed
    while the list is built, before [bytearray] checks it. *)
Definition temp_command (doubled : Z) : list Z :=
  [0x01; 0x06; 0x00; 0x01; 0x00; doubled].

Definition set_temp (temp : Qc) : io (list Z) :=
  doubled ← lift (int_of_product (temp * Qc_of_Z 2)%Qc);
  request ← lift (bytearray (temp_command doubled));
  send_request request.

(** [set_power], line 165. *)
Definition set_power (power remote_lock : Z) : io (list Z) :=
  request ← lift (bytearray [0x01; 0x06; 0x00; 0x00; remote_lock; power]);
  send_request request.

(** [set_time], line 171. *)
Definition set_time (hour minute second day : Z) : io (list Z) :=
  request ← lift (bytearray [0x01; 0x10; 0x00; 0x08; 0x00; 0x02; 0x04;
                             hour; minute; second; day]);
  send_request request.

End with_imports.

End hysen.

(** ** [class tornado]: the air conditioner *)

Module tornado.

(** Line 222: the list comprehension over [enumerate(packet)]. *)
Definition checksum_terms (packet : list Z) : list Z :=
  imap (fun i v => if Z.of_nat i mod 2 =? 0 then v else Z.shiftl v 8) packet.

(** [sum(l)] *)
Definition sum (l : list Z) : Z := foldr Z.add 0 l.

(** [_calculate_checksum], lines 222-223. *)
Definition _calculate_checksum (packet : list Z) (target : Z) : Z * Z :=
  let result := target - Z.land (sum (checksum_terms packet)) 0xffff in
  (Z.land result 0xff, Z.land (Z.shiftr result 8) 0xff).

(** The default value of [target]. *)
Definition default_target : Z := 0x20017.

(** The three command constants of [_send_short_payload]. *)
Definition GET_AC_INFO : list Z :=
  [0x0c; 0x00; 0xbb; 0x00; 0x06; 0x80; 0x00; 0x00; 0x02; 0x00; 0x21; 0x01;
   0x1b; 0x7e].

Definition GET_STATES : list Z :=
  [0x0c; 0x00; 0xbb; 0x00; 0x06; 0x80; 0x00; 0x00; 0x02; 0x00; 0x11; 0x01;
   0x2b; 0x7e].

Definition GET_SLEEP_INFO : list Z :=
  [0x0c; 0x00; 0xbb; 0x00; 0x06; 0x80; 0x00; 0x00; 0x02; 0x00; 0x41; 0x01;
   0xfb; 0x7d].

Definition unrecognized : pyval := VStr "unrecognized value".

(** Lines 272-278. *)
Definition decode_swing_h (b : Z) : pyval :=
  let swing_h := Z.shiftr (Z.land b 0xe0) 5 in
  if swing_h =? 0x7 then VStr "OFF"
  else if swing_h =? 0x7 then VStr "OFF"
  else unrecognized.

(** Lines 271 and 280-287. *)
Definition decode_swing_v (b : Z) : pyval :=
  let swing_v := Z.land b 0x7 in
  if swing_v =? 0x7 then VStr "OFF"
  else if swing_v =? 0x0 then VStr "ON"
  else if (0 <=? swing_v) && (swing_v <=? 5) then VStr (pretty swing_v)
  else unrecognized.

(** Lines 289-301. *)
Definition decode_mode (b : Z) : pyval :=
  let mode := Z.shiftl (Z.shiftr b 3) 3 in
  if mode =? 0x00 then VStr "A"
  else if mode =? 0x20 then VStr "C"
  else if mode =? 0x40 then VStr "D"
  else if mode =? 0x80 then VStr "H"
  else if mode =? 0xc0 then VStr "F"
  else unrecognized.

(** Lines 303-318. *)
Definition decode_speed (speed_L speed_R : Z) : pyval :=
  if (speed_L =? 0x60) && (speed_R =? 0x00) then VStr "L"
  else if (speed_L =? 0x40) && (speed_R =? 0x00) then VStr "M"
  else if (speed_L =? 0x20) && (speed_R =? 0x00) then VStr "H"
  else if (speed_L =? 0x40) && (speed_R =? 0x80) then VStr "Mu"
  else if speed_R =? 0x40 then VStr "T"
  else if (speed_L =? 0xa0) && (speed_R =? 0x00) then VStr "A"
  else unrecognized.

(** Line 269. *)
Definition decode_set_temp (b0c b0e : Z) : pyval :=
  VFloat (Qc_of_Z (Z.shiftr b0c 3 + 8)
          + (if Z.land b0e 0x80 =? 0 then 0 else Q2Qc (1 # 2)))%Qc.

(** Line 329: what [print] writes for the computed checksum. *)
Definition checksum_fail_line (checksum : Z * Z) : string :=
  "checksum fail ['" +:+ format_02x (fst checksum) +:+ "', '"
  +:+ format_02x (snd checksum) +:+ "']".

Section with_imports.
Context `{imports}.

(** [_decode], lines 211-213. *)
Definition _decode (response : list Z) : result (list Z) :=
  decrypt (slice_from response 0x38).

(** [_send_short_payload], lines 230-245.  With any other argument the
    local [packet] is never bound. *)
Definition short_packet (payload : Z) : result (list Z) :=
  if payload =? 0 then bytearray GET_AC_INFO
  else if payload =? 1 then bytearray GET_STATES
  else if payload =? 2 then bytearray GET_SLEEP_INFO
  else if payload =? 3 then
    Ok (<[0x01%nat := 0x07]> (<[0x00%nat := 0xd0]> (replicate 16 0)))
  else Raise (UnboundLocalError "packet").

Definition _send_short_payload (payload : Z) : io (list Z) :=
  packet ← lift (short_packet payload);
  response ← transmit 0x6a packet;
  _ ← lift (check_error (slice response 0x22 0x24));
  lift (_decode response).

(** [get_state], lines 266-322: the fields, in the order they are read. *)
Definition decode_fields (payload : list Z) : result (gmap string pyval) :=
  p14 ← index payload 0x14;
  let data := <["state" := VBool (Z.land p14 0x20 =? 0x20)]> (∅ : gmap string pyval) in
  p0c ← index payload 0x0c;
  p0e ← index payload 0x0e;
  let data := <["set_temp" := decode_set_temp p0c p0e]> data in
  p0c ← index payload 0x0c;
  p0d ← index payload 0x0d;
  let data := <["swing_h" := decode_swing_h p0d]> data in
  let data := <["swing_v" := decode_swing_v p0c]> data in
  p11 ← index payload 0x11;
  let data := <["mode" := decode_mode p11]> data in
  speed_L ← index payload 0x0f;
  speed_R ← index payload 0x10;
  let data := <["speed" := decode_speed speed_L speed_R]> data in
  p1a ← index payload 0x1a;
  let data := <["sleep" := VBool (Z.land p1a 0x4 =? 0x0)]> data in
  p16 ← index payload 0x16;
  let data := <["display" := VBool (Z.land p16 0x10 =? 0x10)]> data in
  p14 ← index payload 0x14;
  let data := <["health" := VBool (Z.land p14 0x3 =? 0x3)]> data in
  Ok data.

(** Lines 326: does the payload carry [checksum] at 0x19 and 0x1a? *)
Definition checksum_matches (payload : list Z) (checksum : Z * Z)
  : result bool :=
  p19 ← index payload 0x19;
  if p19 =? fst checksum
  then p1a ← index payload 0x1a; Ok (p1a =? snd checksum)
  else Ok false.

(** [get_state], lines 266-334, on the payload [_send_short_payload(1)]
    returned. *)
Definition decode_state (payload : list Z) : io (gmap string pyval) :=
  _ ← lift (if len payload =? 32 then Ok tt else Raise AssertionError);
  data ← lift (decode_fields payload);
  let checksum := _calculate_checksum (slice_to payload 0x19) default_target in
  matches ← lift (checksum_matches payload checksum);
  _ ← (if matches : bool then mret tt
       else print (checksum_fail_line checksum));
  let data :=
    if truthy (VBytes payload)
    then <["received_payload" := VBytes payload]> data
    else data in
  mret data.

Definition get_state : io (gmap string pyval) :=
  payload ← _send_short_payload 1;
  decode_state payload.

(** [set_advanced], line 370-371: [locals()] without ['self']. *)
Definition arg_names : list string :=
  ["state"; "mode"; "set_temp"; "speed"; "swing_v"; "swing_h"; "sleep";
   "display"; "health"].

Definition initial_args
    (state mode set_temp speed swing_v swing_h sleep display health : pyval)
  : gmap string pyval :=
  <["health" := health]> (<["display" := display]> (<["sleep" := sleep]>
  (<["swing_h" := swing_h]> (<["swing_v" := swing_v]> (<["speed" := speed]>
  (<["set_temp" := set_temp]> (<["mode" := mode]> (<["state" := state]>
  ∅)))))))).

(** Lines 373-375: one turn of the loop over [args.items()]. *)
Definition fill_missing (received_state args : gmap string pyval)
    (k : string) : result (gmap string pyval) :=
  match args !! k with
  | Some v =>
      if eqb v VNone
      then v' ← getitem received_state k; Ok (<[k := v']> args)
      else Ok args
  | None => Ok args
  end.

(** Line 382: the condition of the [assert]. *)
Definition temperature_ok (args : gmap string pyval) : result bool :=
  t ← getitem args "set_temp";
  a ← number t;
  if bool_decide (Qc_of_Z 16 <= a)%Qc
  then
    if bool_decide (a <= Qc_of_Z 32)%Qc
    then Ok (is_whole (a * Qc_of_Z 2)%Qc)
    else Ok false
  else Ok false.

(** Lines 384-389: the new value of the local [swing_h]. *)
Definition horizontal_swing (args : gmap string pyval) : result pyval :=
  v ← getitem args "swing_H";
  if eqb v (VStr "OFF") then Ok (VInt 0x7)
  else if eqb v (VStr "ON") then Ok (VInt 0x0)
  else Raise (ValueError [VStr "unrecognized swing horizontal value {}"; v]).

(** [str(v)] for a number [v]. *)
Definition str_of_number (v : pyval) : result string :=
  match v with
  | VBool b => Ok (if b then "True" else "False")
  | VInt z => Ok (pretty z)
  | VFloat q => Ok (float_str q)
  | _ => Raise TypeError
  end.

(** Lines 391-398: the new values of the locals [swing_h] and [swing_v]. *)
Definition vertical_swing (args : gmap string pyval) (swing_h swing_v : pyval)
  : result (pyval * pyval) :=
  v ← getitem args "swing_V";
  if eqb v (VStr "OFF") then Ok (VInt 0x7, swing_v)
  else if eqb v (VStr "ON") then Ok (VInt 0x0, swing_v)
  else
    a ← number v;
    if bool_decide (0 <= a)%Qc && bool_decide (a <= Qc_of_Z 5)%Qc
    then s ← str_of_number v; Ok (swing_h, VStr s)
    else
      h ← getitem args "swing_H";
      Raise (ValueError [VStr "unrecognized swing vertical value {}"; h]).

(** Lines 400-415: [speed_L] and [speed_R], from the arguments [speed] and
    [mode] as the caller passed them. *)
Definition speed_bytes (speed mode : pyval) : result (Z * Z) :=
  if eqb speed (VStr "L") then Ok (0x60, 0x00)
  else if eqb speed (VStr "M") then Ok (0x40, 0x00)
  else if eqb speed (VStr "H") then Ok (0x20, 0x00)
  else if eqb speed (VStr "Mu")
  then if eqb mode (VStr "F") then Ok (0x40, 0x80) else Raise AssertionError
  else if eqb speed (VStr "T") then Ok (0x20, 0x40)
  else if eqb speed (VStr "A") then Ok (0xa0, 0x00)
  else Raise (ValueError [VStr "unrecognized speed value: {}"; speed]).

(** Lines 417-428: [mode_1]; the message shows the argument [mode]. *)
Definition mode_byte (args : gmap string pyval) (mode : pyval) : result Z :=
  v ← getitem args "mode";
  if eqb v (VStr "A") then Ok 0x00
  else if eqb v (VStr "C") then Ok 0x20
  else if eqb v (VStr "D") then Ok 0x40
  else if eqb v (VStr "H") then Ok 0x80
  else if eqb v (VStr "F") then Ok 0xc0
  else Raise (ValueError [VStr "unrecognized mode value: {}"; mode]).

(** [x % 1 == 0.5] *)
Definition has_half (q : Qc) : bool :=
  let n := Qnum (this q) in
  let d := Z.pos (Qden (this q)) in
  bool_decide ((q - Qc_of_Z (n / d))%Qc = Q2Qc (1 # 2)).

Definition PREFIX : list Z :=
  [0x19; 0x00; 0xbb; 0x00; 0x06; 0x80; 0x00; 0x00; 0x0f; 0x00; 0x01; 0x01].
Definition MIDDLE : list Z := [0; 0; 0; 0; 0; 0; 0; 0; 0; 0; 0; 0; 0; 0; 0].
Definition SUFFIX : list Z := [0; 0; 0; 0; 0].

(** Lines 430-447: the bytes written into the template. *)
Definition fill_payload (args : gmap string pyval) (swing_h swing_v sleep : pyval)
    (speed_L speed_R mode_1 : Z) (payload : list Z) : result (list Z) :=
  t ← getitem args "set_temp";
  a ← number t;
  h ← integer swing_h;
  let payload := <[0x0c%nat := Z.lor (Z.shiftl (int_of_float a - 8) 3) h]> payload in
  v ← integer swing_v;
  let payload := <[0x0d%nat := Z.lor (Z.shiftl v 5) 0x4]> payload in
  t ← getitem args "set_temp";
  a ← number t;
  let payload :=
    <[0x0e%nat := Z.lor (if has_half a then 0x80 else 0x0) 0x2d]> payload in
  let payload := <[0x0f%nat := speed_L]> payload in
  let payload := <[0x10%nat := speed_R]> payload in
  let payload :=
    <[0x11%nat := Z.lor mode_1 (if truthy sleep then 0x4 else 0x0)]> payload in
  health ← getitem args "health";
  state ← getitem args "state";
  let payload :=
    <[0x14%nat := Z.lor (if truthy health then 0x3 else 0x0)
                        (if truthy state then 0x20 else 0x0)]> payload in
  display ← getitem args "display";
  let payload := <[0x16%nat := if truthy display then 0x10 else 0x0]> payload in
  let payload := <[0x18%nat := 0x5]> payload in
  let checksum := _calculate_checksum (slice_to payload 0x19) default_target in
  let payload := <[0x19%nat := fst checksum]> payload in
  let payload := <[0x1a%nat := snd checksum]> payload in
  Ok payload.

(** [set_advanced], lines 370-452. *)
Definition set_advanced
    (state mode set_temp speed swing_v swing_h sleep display health : pyval)
  : io (list Z) :=
  let args :=
    initial_args state mode set_temp speed swing_v swing_h sleep display health in
  received_state ← get_state;
  args ← lift (for_each (fill_missing received_state) args arg_names);
  let payload := PREFIX ++ MIDDLE ++ SUFFIX in
  ok ← lift (temperature_ok args);
  _ ← lift (if ok : bool then Ok tt else Raise AssertionError);
  swing_h ← lift (horizontal_swing args);
  '(swing_h, swing_v) ← lift (vertical_swing args swing_h swing_v);
  '(speed_L, speed_R) ← lift (speed_bytes speed mode);
  mode_1 ← lift (mode_byte args mode);
  payload ← lift (fill_payload args swing_h swing_v sleep
                    speed_L speed_R mode_1 payload);
  packet ← lift (bytearray payload);
  response ← transmit 0x6a packet;
  _ ← lift (check_error (slice response 0x22 0x24));
  lift (_decode response).

(** [get_ac_info], lines 343-352, on the payload
    [_send_short_payload(0)] returned. *)
Definition decode_ac_info (payload : list Z) : result (gmap string pyval) :=
  p0d ← index payload 0x0d;
  let data := <["state" := VBool (Z.land p0d 0x1 =? 0x1)]> (∅ : gmap string pyval) in
  Ok (if truthy (VBytes payload)
      then <["received_payload" := VBytes payload]> data
      else data).

Definition get_ac_info : io (gmap string pyval) :=
  payload ← _send_short_payload 0;
  lift (decode_ac_info payload).

End with_imports.

End tornado.

(** ** A sample environment

    One concrete choice of the imports, used to run the definitions: the
    CRC-16 with polynomial 0xA001 and initial value 0xFFFF, a transport
    that answers every packet with a header of 0x38 zero bytes followed by
    a fixed body, a [check_error] that accepts the error code zero, and a
    [decrypt] that returns its argument. *)

Module sample.

Definition crc16_bit (crc : Z) (_ : nat) : Z :=
  if Z.land crc 1 =? 1
  then Z.lxor (Z.shiftr crc 1) 0xA001
  else Z.shiftr crc 1.

Definition crc16_byte (crc b : Z) : Z :=
  foldl crc16_bit (Z.lxor crc b) (seq 0 8).

Definition crc16 (data : list Z) : Z := foldl crc16_byte 0xFFFF data.

Definition accept_zero (code : list Z) : result unit :=
  if forallb (Z.eqb 0) code then Ok tt
  else Raise (CollaboratorError "device error").

Definition environment (body : list Z) : imports := {|
  calculate_crc16 := crc16;
  send_packet := fun _ _ _ => Ok (replicate 0x38 0 ++ body);
  check_error := accept_zero;
  decrypt := fun l => Ok l;
  float_str := fun _ => "0.0"
|}.

(** A status body of 32 bytes whose checksum bytes are left at zero. *)
Definition stale_status : list Z :=
  [0x19; 0x00; 0xbb; 0x00; 0x07; 0x00; 0x00; 0x00; 0x0f; 0x00; 0x01; 0x01;
   0x80; 0xe4; 0x2d; 0x40; 0x00; 0x20; 0x00; 0x00; 0x20; 0x00; 0x10; 0x00;
   0x05; 0x00; 0x00; 0x00; 0x00; 0x00; 0x00; 0x00].

(** A transport whose responses carry the error code 0xfffb. *)
Definition error_response : list Z :=
  replicate 0x22 0 ++ [0xfb; 0xff] ++ replicate 0x14 0.

Definition rejecting : imports := {|
  calculate_crc16 := crc16;
  send_packet := fun _ _ _ => Ok error_response;
  check_error := accept_zero;
  decrypt := fun l => Ok l;
  float_str := fun _ => "0.0"
|}.

End sample.

(** * Properties *)

(** ** The target-sum checksum *)

(** The checksum as the specification words it: byte [i] counts as itself
    at an even index and 256 times itself at an odd one. *)
Fixpoint spec_sum (even : bool) (b : list Z) : Z :=
  match b with
  | [] => 0
  | x :: b' => (if even then x else x * 256) + spec_sum (negb even) b'
  end.

(** The number a byte string denotes when read low byte first. *)
Definition little_endian (l : list Z) : Z :=
  foldr (fun b acc => b + 256 * acc) 0 l.

(** The calibration offset as the specification words it: the raw 16-bit
    value over two, mirrored when the raw value exceeds 32767. *)
Definition spec_room_temp_adj (raw : Z) : Qc :=
  if raw >? 32767 then (Qc_of_Z 32767 - half raw)%Qc else half raw.

(** The fan-speed table of [get_state]: the five byte pairs, and any pair
    whose second byte is 0x40. *)
Definition known_speed (speed_L speed_R : Z) : bool :=
  bool_decide ((speed_L, speed_R) ∈
               [(0x60, 0x00); (0x40, 0x00); (0x20, 0x00); (0x40, 0x80);
                (0xa0, 0x00)])
  || (speed_R =? 0x40).

(** The letters [get_state] gives to the entries of that table. *)
Definition speed_names : list pyval :=
  [VStr "L"; VStr "M"; VStr "H"; VStr "Mu"; VStr "T"; VStr "A"].

(** The value of a parameter of [set_advanced] after the merge with the
    current state. *)
Definition effective (argument : pyval) (current : option pyval)
  : option pyval :=
  if eqb argument VNone then current else Some argument.

(** The temperature test of [set_advanced]: between 16 and 32, in steps of
    one half. *)
Definition valid_temperature (a : Qc) : Prop :=
  (Qc_of_Z 16 <= a)%Qc /\ (a <= Qc_of_Z 32)%Qc /\ is_whole (a * Qc_of_Z 2)%Qc = true.

(** The byte at an offset of a payload long enough to have one. *)
Definition byte_at (payload : list Z) (i : Z) : Z :=
  default 0 (payload !! Z.to_nat i).

(** The entries [get_state] decodes from a payload of 32 bytes. *)
Definition state_fields (p : list Z) : gmap string pyval :=
  <["health" := VBool (Z.land (byte_at p 0x14) 0x3 =? 0x3)]> (
  <["display" := VBool (Z.land (byte_at p 0x16) 0x10 =? 0x10)]> (
  <["sleep" := VBool (Z.land (byte_at p 0x1a) 0x4 =? 0x0)]> (
  <["speed" := tornado.decode_speed (byte_at p 0x0f) (byte_at p 0x10)]> (
  <["mode" := tornado.decode_mode (byte_at p 0x11)]> (
  <["swing_v" := tornado.decode_swing_v (byte_at p 0x0c)]> (
  <["swing_h" := tornado.decode_swing_h (byte_at p 0x0d)]> (
  <["set_temp" := tornado.decode_set_temp (byte_at p 0x0c) (byte_at p 0x0e)]> (
  <["state" := VBool (Z.land (byte_at p 0x14) 0x20 =? 0x20)]> ∅)))))))).

(** The checksum [get_state] expects in a payload. *)
Definition expected_checksum (p : list Z) : Z * Z :=
  tornado._calculate_checksum (slice_to p 0x19) tornado.default_target.

(** The record [get_full_status] builds from a payload of at least 47
    bytes, read with total lookups. *)
Definition entry_at (p : list Z) (i : Z) : hysen.schedule_entry :=
  {| hysen.start_hour := byte_at p (2 * i + 23);
     hysen.start_minute := byte_at p (2 * i + 24);
     hysen.temp := half (byte_at p (i + 39)) |}.

Definition status_of (p : list Z) : hysen.full_status :=
  {| hysen.remote_lock := Z.land (byte_at p 3) 1;
     hysen.power := Z.land (byte_at p 4) 1;
     hysen.active := Z.land (Z.shiftr (byte_at p 4) 4) 1;
     hysen.temp_manual := Z.land (Z.shiftr (byte_at p 4) 6) 1;
     hysen.room_temp := half (Z.land (byte_at p 5) 255);
     hysen.thermostat_temp := half (Z.land (byte_at p 6) 255);
     hysen.auto_mode := Z.land (byte_at p 7) 15;
     hysen.loop_mode := Z.land (Z.shiftr (byte_at p 7) 4) 15;
     hysen.sensor := byte_at p 8;
     hysen.osv := byte_at p 9;
     hysen.dif := byte_at p 10;
     hysen.svh := byte_at p 11;
     hysen.svl := byte_at p 12;
     hysen.room_temp_adj :=
       hysen.decode_room_temp_adj (byte_at p 13) (byte_at p 14);
     hysen.fre := byte_at p 15;
     hysen.poweron := byte_at p 16;
     hysen.unknown := byte_at p 17;
     hysen.external_temp := half (Z.land (byte_at p 18) 255);
     hysen.hour := byte_at p 19;
     hysen.min := byte_at p 20;
     hysen.sec := byte_at p 21;
     hysen.dayofweek := byte_at p 22;
     hysen.weekday := entry_at p <$> [0; 1; 2; 3; 4; 5];
     hysen.weekend := entry_at p <$> [6; 7] |}.

(** The three fields of a schedule entry are bytes. *)
Definition entry_bytes (hmt : Z * Z * Z) : bool :=
  is_byte hmt.1.1 && is_byte hmt.1.2 && is_byte hmt.2.

(** What [set_schedule] accepts in an entry, and the bytes it writes for
    a sequence of entries: the times, then the doubled temperatures. *)
Definition entry_valid (e : hysen.schedule_entry) : bool :=
  is_byte (hysen.start_hour e) && is_byte (hysen.start_minute e)
  && is_byte (int_of_float (hysen.temp e * Qc_of_Z 2)%Qc).

Definition times_of (entries : list hysen.schedule_entry) : list Z :=
  entries ≫= (fun e => [hysen.start_hour e; hysen.start_minute e]).

Definition temps_of (entries : list hysen.schedule_entry) : list Z :=
  (fun e => int_of_float (hysen.temp e * Qc_of_Z 2)%Qc) <$> entries.

(** The bytes of the heating controller's [set_advanced] command, for the
    doubled and truncated offset [adj2]. *)
Definition advanced_command (loop_mode sensor osv dif svh svl adj2 fre poweron : Z)
  : list Z :=
  [0x01; 0x10; 0x00; 0x02; 0x00; 0x05; 0x0a; loop_mode; sensor; osv; dif;
   svh; svl; Z.land (Z.shiftr adj2 8) 0xff; Z.land adj2 0xff; fre; poweron].

(** The frame [send_request] builds around a payload whose CRC is [crc]. *)
Definition frame_of (crc : Z) (payload : list Z) : list Z :=
  [len payload + 2; 0] ++ payload
  ++ [Z.land crc 0xFF; Z.land (Z.shiftr crc 8) 0xFF].

(** The schedule entry whose fields are the bytes [h], [m] and [t], the
    temperature being [t] half degrees. *)
Definition entry_of (hmt : Z * Z * Z) : hysen.schedule_entry :=
  {| hysen.start_hour := hmt.1.1; hysen.start_minute := hmt.1.2;
     hysen.temp := half hmt.2 |}.

(** The weight of position [i] in the target-sum checksum. *)
Definition weight (i : nat) : Z := if Nat.even i then 1 else 256.

Definition spec_target_sum (b : list Z) : Z * Z :=
  let S := spec_sum true b mod 0x10000 in
  let r := (0x20017 - S) mod 0x10000 in
  (r mod 0x100, r / 0x100).

Lemma sum_imap_parity (b : list Z) :
  forall (f : nat -> Z -> Z) (e : bool),
    (forall i v, f i v = if Bool.eqb (Nat.even i) e then v else v * 256) ->
    tornado.sum (imap f b) = spec_sum e b.
Proof.
  induction b as [|x b IH]; intros f e Hf; [reflexivity|].
  cbn [imap foldr tornado.sum spec_sum]. f_equal.
  - rewrite Hf. cbn. now destruct e.
  - apply IH. intros i v. unfold compose. rewrite Hf.
    rewrite Nat.even_succ, <- Nat.negb_even. now destruct (Nat.even i), e.
Qed.

Lemma sum_checksum_terms (b : list Z) :
  tornado.sum (tornado.checksum_terms b) = spec_sum true b.
Proof.
  apply sum_imap_parity. intros i v.
  rewrite Z.shiftl_mul_pow2 by lia. change (2 ^ 8) with 256.
  destruct (Nat.even i) eqn:E; cbn.
  - apply Nat.even_spec in E. destruct E as [k ->].
    replace (Z.of_nat (2 * k)) with (Z.of_nat k * 2) by lia.
    now rewrite Z.mod_mul.
  - assert (O : Nat.odd i = true) by now rewrite <- Nat.negb_even, E.
    apply Nat.odd_spec in O. destruct O as [k ->].
    replace (Z.of_nat (2 * k + 1)) with (1 + Z.of_nat k * 2) by lia.
    now rewrite Z.mod_add.
Qed.

(** C3. For every sequence of integers, [_calculate_checksum] with the
    default target returns the low and the high byte of
    (0x20017 - S) mod 0x10000, where S is the sum of the bytes at even
    indices and of 256 times the bytes at odd indices, modulo 0x10000. *)
Theorem calculate_checksum_formula (b : list Z) :
  tornado._calculate_checksum b tornado.default_target = spec_target_sum b.
Proof.
  unfold tornado._calculate_checksum, spec_target_sum, tornado.default_target.
  rewrite sum_checksum_terms.
  change 0xffff with (Z.ones 16). change 0xff with (Z.ones 8).
  rewrite !Z.land_ones, Z.shiftr_div_pow2 by lia.
  change (2 ^ 16) with 65536. change (2 ^ 8) with 256.
  change 0x10000 with 65536. change 0x100 with 256. change 0x20017 with 131095.
  set (s := spec_sum true b mod 65536).
  assert (0 <= s < 65536) by (apply Z.mod_pos_bound; lia).
  f_equal; Z.div_mod_to_equations; lia.
Qed.

(** C4. With the default target 0x20017 the checksum of the first twelve
    bytes of the GET_AC_INFO command is (0x27, 0x7e); the trailer
    (0x1b, 0x7e) stored in the constant is their checksum for the target
    0x2000b. *)
Theorem get_ac_info_checksum :
  let body := [0x0c; 0x00; 0xbb; 0x00; 0x06; 0x80; 0x00; 0x00; 0x02; 0x00;
               0x21; 0x01] in
  tornado.GET_AC_INFO = body ++ [0x1b; 0x7e] /\
  tornado._calculate_checksum body tornado.default_target = (0x27, 0x7e) /\
  tornado._calculate_checksum body 0x2000b = (0x1b, 0x7e).
Proof. repeat split. Qed.

(** The checksum of those twelve bytes for the target 0x20017 is not the
    trailer of the command. *)
Lemma get_ac_info_trailer_differs :
  tornado._calculate_checksum
    [0x0c; 0x00; 0xbb; 0x00; 0x06; 0x80; 0x00; 0x00; 0x02; 0x00; 0x21; 0x01]
    0x20017
  <> (0x1b, 0x7e).
Proof. vm_compute. discriminate. Qed.

(** ** Indexing and slicing *)

Section sequences.
Context {A : Type}.
Implicit Types (l : list A) (x : A) (i : Z).

Lemma len_app l1 l2 : len (l1 ++ l2) = len l1 + len l2.
Proof. unfold len. rewrite length_app. lia. Qed.

Lemma len_nonneg l : 0 <= len l.
Proof. unfold len. lia. Qed.

Lemma index_lookup l i x :
  0 <= i -> l !! Z.to_nat i = Some x -> index l i = Ok x.
Proof.
  intros Hi Hx. unfold index.
  assert (i < len l).
  { apply lookup_lt_Some in Hx. unfold len. lia. }
  replace (i <? 0) with false by lia.
  replace ((0 <=? i) && (i <? len l)) with true by lia.
  now rewrite Hx.
Qed.

Lemma index_in_range l i :
  0 <= i < len l -> exists x, l !! Z.to_nat i = Some x /\ index l i = Ok x.
Proof.
  intros Hi. destruct (lookup_lt_is_Some_2 l (Z.to_nat i)) as [x Hx].
  { unfold len in Hi. lia. }
  exists x. split; [exact Hx|]. apply index_lookup; [lia|exact Hx].
Qed.

Lemma index_out_of_range l i : len l <= i -> index l i = Raise IndexError.
Proof.
  intros Hi. unfold index. pose proof (len_nonneg l).
  replace (i <? 0) with false by lia.
  now replace ((0 <=? i) && (i <? len l)) with false by lia.
Qed.

Lemma slice_in_range l lo hi :
  0 <= lo <= hi -> hi <= len l ->
  slice l lo hi = take (Z.to_nat (hi - lo)) (drop (Z.to_nat lo) l).
Proof.
  intros Hlo Hhi. unfold slice, clip.
  replace (lo <? 0) with false by lia. replace (hi <? 0) with false by lia.
  now rewrite !Z.min_l by lia.
Qed.

Lemma slice_middle l1 l2 l3 :
  slice (l1 ++ l2 ++ l3) (len l1) (len l1 + len l2) = l2.
Proof.
  pose proof (len_nonneg l1). pose proof (len_nonneg l2).
  pose proof (len_nonneg l3).
  rewrite slice_in_range by (rewrite ?len_app; lia).
  replace (Z.to_nat (len l1)) with (length l1) by (unfold len; lia).
  rewrite drop_app_length.
  replace (Z.to_nat (len l1 + len l2 - len l1)) with (length l2)
    by (unfold len; lia).
  apply take_app_length.
Qed.

Lemma lookup_app_app l1 l2 l3 (n k : nat) :
  length l1 = n ->
  (l1 ++ l2 ++ l3) !! (n + length l2 + k)%nat = l3 !! k.
Proof.
  intros <-.
  rewrite lookup_app_r by lia. rewrite lookup_app_r by lia. f_equal. lia.
Qed.

Lemma slice_pair l i x y :
  0 <= i -> l !! Z.to_nat i = Some x -> l !! Z.to_nat (i + 1) = Some y ->
  slice l i (i + 2) = [x; y].
Proof.
  intros Hi Hx Hy.
  assert (i + 2 <= len l).
  { apply lookup_lt_Some in Hy. unfold len. lia. }
  rewrite slice_in_range by lia.
  replace (Z.to_nat (i + 2 - i)) with 2%nat by lia.
  replace (Z.to_nat (i + 1)) with (S (Z.to_nat i)) in Hy by lia.
  rewrite (drop_S _ _ _ Hx), (drop_S _ _ _ Hy). reflexivity.
Qed.

End sequences.

Lemma is_byte_range x : is_byte x = true <-> 0 <= x < 256.
Proof. unfold is_byte. lia. Qed.

Lemma is_bytes_Forall l : is_bytes l = true <-> Forall (fun x => 0 <= x < 256) l.
Proof.
  unfold is_bytes. rewrite forallb_forall, Forall_forall.
  split; intros Hl x Hx; apply is_byte_range, Hl;
    [now apply list_elem_of_In | now apply list_elem_of_In].
Qed.

Lemma is_bytes_lookup l i x :
  is_bytes l = true -> l !! i = Some x -> 0 <= x < 256.
Proof.
  intros Hl Hx. apply is_bytes_Forall in Hl.
  now apply (Forall_lookup_1 _ _ _ _ Hl Hx).
Qed.

Lemma land_255_byte z : is_byte (Z.land z 0xFF) = true.
Proof.
  apply is_byte_range. change 0xFF with (Z.ones 8).
  rewrite Z.land_ones by lia. apply Z.mod_pos_bound. lia.
Qed.

(** ** The heating controller's frame *)

Section hysen_frame.
Context `{imports}.

(** C1. For every non-empty payload of bytes whose length plus two fits in
    the length byte, [send_request] builds the frame made of the length
    byte [len payload + 2], a zero byte, the payload and the CRC-16 of the
    payload, low byte first; and the response check, applied to that
    frame, returns the payload unchanged. *)
Theorem frame_roundtrip (payload : list Z) :
  is_bytes payload = true ->
  payload <> [] ->
  len payload + 2 <= 255 ->
  let crc := calculate_crc16 payload in
  let frame := [len payload + 2; 0] ++ payload
               ++ [Z.land crc 0xFF; Z.land (Z.shiftr crc 8) 0xFF] in
  hysen.build_request payload = Ok frame /\
  hysen.parse_response frame = Ok payload.
Proof.
  intros Hbytes _ Hlen crc frame. pose proof (len_nonneg payload) as Hn.
  assert (Hslice : slice frame 2 (len payload + 2) = payload).
  { pose proof (slice_middle [len payload + 2; 0] payload
                  [Z.land crc 0xFF; Z.land (Z.shiftr crc 8) 0xFF]) as Hmid.
    change (len [len payload + 2; 0]) with 2 in Hmid.
    now rewrite (Z.add_comm 2) in Hmid. }
  assert (Hframe : len frame = len payload + 4).
  { unfold frame. rewrite !len_app.
    change (len [len payload + 2; 0]) with 2.
    change (len [Z.land crc 0xFF; Z.land (Z.shiftr crc 8) 0xFF]) with 2.
    lia. }
  assert (Hlo : frame !! Z.to_nat (len payload + 2) = Some (Z.land crc 0xFF)).
  { replace (Z.to_nat (len payload + 2))
      with (2 + length payload + 0)%nat by (unfold len; lia).
    unfold frame. now rewrite lookup_app_app. }
  assert (Hhi : frame !! Z.to_nat (len payload + 2 + 1)
                = Some (Z.land (Z.shiftr crc 8) 0xFF)).
  { replace (Z.to_nat (len payload + 2 + 1))
      with (2 + length payload + 1)%nat by (unfold len; lia).
    unfold frame. now rewrite lookup_app_app. }
  split.
  - unfold hysen.build_request, bytearray, extend, append.
    replace (is_bytes [len payload + 2; 0]) with true
      by (symmetry; apply is_bytes_Forall; repeat constructor; lia).
    cbn [mbind result_bind]. rewrite Hbytes. cbn [mbind result_bind].
    rewrite !land_255_byte. cbn [mbind result_bind].
    unfold frame. now rewrite <- !app_assoc.
  - unfold hysen.parse_response.
    change (index frame 0) with (Ok (A:=Z) (len payload + 2)).
    cbn [mbind result_bind]. rewrite Hframe.
    replace (len payload + 2 + 2 >? len payload + 4) with false by lia.
    rewrite Hslice. fold crc.
    rewrite (index_lookup frame (len payload + 2) _) by (lia || exact Hlo).
    cbn [mbind result_bind]. rewrite Z.eqb_refl.
    rewrite (index_lookup frame (len payload + 2 + 1) _) by (lia || exact Hhi).
    cbn [mbind result_bind].
    now rewrite Z.eqb_refl.
Qed.

(** Past that length the frame is not built: the length byte does not fit. *)
Lemma build_request_too_long (payload : list Z) :
  255 < len payload + 2 ->
  hysen.build_request payload = Raise byte_range_error.
Proof.
  intros Hlen. unfold hysen.build_request, bytearray, is_bytes.
  cbn [forallb].
  now replace (is_byte (len payload + 2)) with false by (unfold is_byte; lia).
Qed.

(** C2. For every decrypted response of bytes with first byte
    [declared_length]: when [declared_length + 2] exceeds the length of the
    response the check fails with the length error; otherwise, when the
    two bytes at [declared_length], read low byte first, are not the
    CRC-16 of [payload[2 : declared_length]], it fails with the CRC error;
    otherwise it returns [payload[2 : declared_length]]. *)
Theorem parse_response_cases (declared_length : Z) (rest : list Z) :
  let payload := declared_length :: rest in
  let body := slice payload 2 declared_length in
  is_bytes payload = true ->
  0 <= calculate_crc16 body < 0x10000 ->
  hysen.parse_response payload =
    if declared_length + 2 >? len payload then Raise hysen.length_error
    else if little_endian
              (slice payload declared_length (declared_length + 2))
            =? calculate_crc16 body
         then Ok body
         else Raise hysen.crc_error.
Proof.
  intros payload body Hbytes Hcrc. unfold hysen.parse_response.
  change (index payload 0) with (Ok (A:=Z) declared_length).
  cbn [mbind result_bind]. fold body.
  assert (0 <= declared_length < 256) as Hd.
  { apply (is_bytes_lookup payload 0 _ Hbytes). reflexivity. }
  destruct (declared_length + 2 >? len payload) eqn:Hlen; [reflexivity|].
  destruct (index_in_range payload declared_length) as (lo & Hlo & Ilo);
    [lia|].
  destruct (index_in_range payload (declared_length + 1)) as (hi & Hhi & Ihi);
    [lia|].
  rewrite Ilo, (slice_pair payload declared_length lo hi) by (lia || assumption).
  cbn [mbind result_bind little_endian foldr].
  pose proof (is_bytes_lookup _ _ _ Hbytes Hlo) as Blo.
  pose proof (is_bytes_lookup _ _ _ Hbytes Hhi) as Bhi.
  set (crc := calculate_crc16 body) in *.
  change 0xFF with (Z.ones 8).
  rewrite !Z.land_ones, Z.shiftr_div_pow2 by lia.
  change (2 ^ 8) with 256. change 0x10000 with 65536 in Hcrc.
  destruct (lo =? crc mod 256) eqn:Elo.
  - rewrite Ihi. cbn [mbind result_bind].
    destruct (hi =? crc / 256 mod 256) eqn:Ehi.
    + replace (lo + 256 * (hi + 256 * 0) =? crc) with true; [reflexivity|].
      symmetry. apply Z.eqb_eq. apply Z.eqb_eq in Elo, Ehi.
      Z.div_mod_to_equations. lia.
    + replace (lo + 256 * (hi + 256 * 0) =? crc) with false; [reflexivity|].
      symmetry. apply Z.eqb_neq. apply Z.eqb_neq in Ehi.
      Z.div_mod_to_equations. lia.
  - replace (lo + 256 * (hi + 256 * 0) =? crc) with false; [reflexivity|].
    symmetry. apply Z.eqb_neq. apply Z.eqb_neq in Elo.
    Z.div_mod_to_equations. lia.
Qed.

(** An empty response has no length byte to read. *)
Lemma parse_response_empty : hysen.parse_response [] = Raise IndexError.
Proof. reflexivity. Qed.

End hysen_frame.

(** The read-temperature request and its frame, with the sample CRC. *)
Lemma frame_roundtrip_witness :
  let env := sample.environment [] in
  let payload := [0x01; 0x03; 0x00; 0x00; 0x00; 0x08] in
  let frame := [0x08; 0x00; 0x01; 0x03; 0x00; 0x00; 0x00; 0x08; 0x44; 0x0c] in
  (is_bytes payload = true /\ payload <> [] /\ len payload + 2 <= 255) /\
  @hysen.build_request env payload = Ok frame /\
  @hysen.parse_response env frame = Ok payload.
Proof.
  intros env payload frame. split.
  - repeat split; [discriminate | vm_compute; discriminate].
  - apply (@frame_roundtrip env payload);
      [reflexivity | discriminate | vm_compute; discriminate].
Defined.

(** A frame whose last byte was altered fails the CRC check. *)
Lemma parse_response_cases_witness :
  let env := sample.environment [] in
  let payload := [0x08; 0x00; 0x01; 0x03; 0x00; 0x00; 0x00; 0x08; 0x44; 0x0d] in
  (is_bytes payload = true /\
   0 <= @calculate_crc16 env (slice payload 2 0x08) < 0x10000) /\
  @hysen.parse_response env payload = Raise hysen.crc_error.
Proof.
  intros env payload. split.
  - split; [reflexivity | split; [vm_compute; discriminate | reflexivity]].
  - apply (@parse_response_cases env 0x08
             [0x00; 0x01; 0x03; 0x00; 0x00; 0x00; 0x08; 0x44; 0x0d]);
      [reflexivity | split; [vm_compute; discriminate | reflexivity]].
Defined.

(** ** The heating controller's status *)

(** Splitting a successful [bind] into its two steps. *)
Lemma bind_Ok {A B} (m : result A) (k : A -> result B) (b : B) :
  (m ≫= k) = Ok b -> exists a, m = Ok a /\ k a = Ok b.
Proof. destruct m as [a|e]; [eauto | discriminate]. Qed.

Ltac invert_bind H :=
  let a := fresh "v" in
  let E := fresh "E" in
  apply bind_Ok in H; destruct H as (a & E & H).

Lemma half_gt (k x : Z) : (Qc_of_Z k < half x)%Qc <-> 2 * k < x.
Proof.
  unfold Qclt, half, Qc_of_Z. cbn [this Q2Qc].
  rewrite Qred_correct. unfold Qlt. cbn. lia.
Qed.

Lemma decode_room_temp_adj_cases (hi lo : Z) :
  0 <= hi < 256 -> 0 <= lo < 256 ->
  hysen.decode_room_temp_adj hi lo =
    if hi * 256 + lo =? 65535
    then (Qc_of_Z 32767 - half 65535)%Qc
    else half (hi * 256 + lo).
Proof.
  intros Hhi Hlo. unfold hysen.decode_room_temp_adj.
  rewrite Z.shiftl_mul_pow2 by lia. change (2 ^ 8) with 256.
  destruct (hi * 256 + lo =? 65535) eqn:E.
  - apply Z.eqb_eq in E. rewrite E.
    rewrite bool_decide_eq_true_2; [reflexivity|]. apply half_gt. lia.
  - apply Z.eqb_neq in E.
    rewrite bool_decide_eq_false_2; [reflexivity|]. rewrite half_gt. lia.
Qed.

Lemma decode_full_status_adj (payload : list Z) (st : hysen.full_status) :
  hysen.decode_full_status payload = Ok st ->
  exists hi lo,
    index payload 13 = Ok hi /\ index payload 14 = Ok lo /\
    hysen.room_temp_adj st = hysen.decode_room_temp_adj hi lo.
Proof.
  intros Hst. unfold hysen.decode_full_status in Hst.
  do 22 invert_bind Hst. injection Hst as <-.
  eexists _, _. repeat split; eassumption.
Qed.

(** What lines 79-81 compute: for every status payload the decode
    accepts, the calibration offset is the 16-bit big-endian value of bytes
    13 and 14 divided by two, and the mirror correction (32767 minus that
    quotient) is applied exactly when the quotient exceeds 32767, that is
    for the raw value 65535 alone, where it gives minus one half; every raw
    value up to 65534 decodes to the raw value over two. *)
Theorem room_temp_adj_correction (payload : list Z) (st : hysen.full_status)
    (hi lo : Z) :
  is_bytes payload = true ->
  hysen.decode_full_status payload = Ok st ->
  index payload 13 = Ok hi ->
  index payload 14 = Ok lo ->
  let raw := hi * 256 + lo in
  0 <= raw <= 65535 /\
  hysen.room_temp_adj st =
    (if raw =? 65535 then Q2Qc (-1 # 2) else half raw).
Proof.
  intros Hbytes Hst Hhi Hlo raw.
  destruct (decode_full_status_adj _ _ Hst) as (hi' & lo' & Hhi' & Hlo' & ->).
  rewrite Hhi in Hhi'. rewrite Hlo in Hlo'.
  injection Hhi' as <-. injection Hlo' as <-.
  assert (0 <= hi < 256 /\ 0 <= lo < 256) as [Bhi Blo].
  { unfold index in Hhi, Hlo. cbn [Z.ltb Z.compare] in Hhi, Hlo.
    destruct ((0 <=? 13) && (13 <? len payload)); [|discriminate].
    destruct ((0 <=? 14) && (14 <? len payload)); [|discriminate].
    destruct (payload !! Z.to_nat 13) eqn:E13; [|discriminate].
    destruct (payload !! Z.to_nat 14) eqn:E14; [|discriminate].
    injection Hhi as ->. injection Hlo as ->.
    split; eapply is_bytes_lookup; eassumption. }
  split; [unfold raw; lia|].
  rewrite decode_room_temp_adj_cases by assumption. fold raw.
  destruct (raw =? 65535); [|reflexivity].
  apply Qc_is_canon. reflexivity.
Qed.

(** A status of 47 bytes whose calibration bytes are 0xff, 0xff. *)
Lemma room_temp_adj_correction_witness :
  let payload := replicate 13 0 ++ [0xff; 0xff] ++ replicate 32 0 in
  exists st,
    (is_bytes payload = true /\ hysen.decode_full_status payload = Ok st /\
     index payload 13 = Ok 0xff /\ index payload 14 = Ok 0xff) /\
    hysen.room_temp_adj st = Q2Qc (-1 # 2).
Proof.
  intros payload. eexists. split.
  - repeat split; reflexivity.
  - apply (proj2 (room_temp_adj_correction payload _ 0xff 0xff
                    eq_refl eq_refl eq_refl eq_refl)).
Defined.

(** The raw value 32768 exceeds 32767 and is decoded without the mirror
    correction. *)
Lemma room_temp_adj_unmirrored :
  let payload := replicate 13 0 ++ [0x80; 0x00] ++ replicate 32 0 in
  let raw := 0x80 * 256 + 0x00 in
  exists st,
    hysen.decode_full_status payload = Ok st /\
    raw > 32767 /\
    hysen.room_temp_adj st = Qc_of_Z 16384 /\
    hysen.room_temp_adj st <> spec_room_temp_adj raw.
Proof.
  intros payload raw. eexists. split; [reflexivity|].
  split; [reflexivity|].
  assert (Hcode : hysen.decode_room_temp_adj 0x80 0x00 = Qc_of_Z 16384)
    by (apply Qc_is_canon; reflexivity).
  assert (Hspec : spec_room_temp_adj raw = Qc_of_Z 16383)
    by (apply Qc_is_canon; reflexivity).
  cbn [hysen.room_temp_adj]. split; [exact Hcode|].
  rewrite Hcode, Hspec. intros Heq. apply Z2Qc_inj in Heq. discriminate.
Qed.

(** C8. The calibration bytes 0xff, 0xfe are the ones the [set_advanced]
    command writes for an offset of -1.0.  Their raw value 65534 exceeds
    32767, so the mirror correction is due and would give 0.0; the decode
    compares the halved value with 32767 instead and returns 32767.0,
    uncorrected. *)
Theorem room_temp_adj_skips_correction :
  let command := advanced_command 0 0 0 0 0 0 (-2) 0 0 in
  let payload := replicate 13 0 ++ [0xff; 0xfe] ++ replicate 32 0 in
  let raw := 0xff * 256 + 0xfe in
  int_of_product (Qc_of_Z (-1) * Qc_of_Z 2)%Qc = Ok (-2) /\
  command !! 13%nat = Some 0xff /\ command !! 14%nat = Some 0xfe /\
  raw > 32767 /\
  exists st,
    hysen.decode_full_status payload = Ok st /\
    hysen.room_temp_adj st = Qc_of_Z 32767 /\
    spec_room_temp_adj raw = Qc_of_Z 0 /\
    hysen.room_temp_adj st <> spec_room_temp_adj raw.
Proof.
  intros command payload raw.
  split; [vm_compute; reflexivity|].
  split; [reflexivity|]. split; [reflexivity|]. split; [reflexivity|].
  eexists. split; [reflexivity|].
  assert (Hcode : hysen.decode_room_temp_adj 0xff 0xfe = Qc_of_Z 32767)
    by (apply Qc_is_canon; reflexivity).
  assert (Hspec : spec_room_temp_adj raw = Qc_of_Z 0)
    by (apply Qc_is_canon; reflexivity).
  cbn [hysen.room_temp_adj]. split; [exact Hcode|]. split; [exact Hspec|].
  rewrite Hcode, Hspec. intros Heq. apply Z2Qc_inj in Heq. discriminate.
Qed.

(** ** The heating controller's schedule *)

Lemma for_each_raises {A S} (body : S -> A -> result S) (l : list A) (x : A) :
  x ∈ l ->
  (forall s, exists e, body s x = Raise e) ->
  forall s, exists e, for_each body s l = Raise e.
Proof.
  intros Hx Hbody. induction l as [|y l IH]; intros s.
  - inversion Hx.
  - cbn [for_each]. apply elem_of_cons in Hx as [<-|Hx].
    + destruct (Hbody s) as [e ->]. now exists e.
    + destruct (body s y) as [s'|e]; cbn; [now apply IH | now exists e].
Qed.

Lemma for_each_ext {A S} (body body' : S -> A -> result S) (l : list A) :
  (forall x, x ∈ l -> forall s, body s x = body' s x) ->
  forall s, for_each body s l = for_each body' s l.
Proof.
  induction l as [|y l IH]; intros Hext s; [reflexivity|].
  cbn [for_each]. rewrite Hext by left.
  destruct (body' s y) as [s'|e]; cbn; [|reflexivity].
  apply IH. intros x Hx. apply Hext. now right.
Qed.

Lemma index_take {A} (l : list A) (n : nat) (i : Z) :
  0 <= i < Z.of_nat n -> index (take n l) i = index l i.
Proof.
  intros Hi. unfold index, len. rewrite length_take.
  replace (i <? 0) with false by lia.
  rewrite lookup_take_lt by lia.
  assert (Hm : (i <? Z.of_nat (n `min` length l)%nat)
               = (i <? Z.of_nat (length l))).
  { destruct (Nat.min_spec n (length l)) as [[Hlt ->]|[Hle ->]]; lia. }
  now rewrite Hm.
Qed.

Lemma elem_of_range (lo hi i : Z) : i ∈ range lo hi <-> lo <= i < hi.
Proof.
  unfold range. rewrite list_elem_of_fmap. split.
  - intros (k & -> & Hk). apply elem_of_seq in Hk. lia.
  - intros Hi. exists (Z.to_nat (i - lo)). split; [lia|].
    apply elem_of_seq. lia.
Qed.

Lemma schedule_payload_take (weekday weekend : list hysen.schedule_entry) :
  hysen.schedule_payload weekday weekend =
  hysen.schedule_payload (take 6 weekday) (take 2 weekend).
Proof.
  unfold hysen.schedule_payload.
  assert (Ht : forall (n : nat) l hi, hi <= Z.of_nat n -> forall s,
            for_each (hysen.schedule_times (take n l)) s (range 0 hi)
            = for_each (hysen.schedule_times l) s (range 0 hi)).
  { intros n l hi Hhi. apply for_each_ext. intros i Hi s.
    apply elem_of_range in Hi. unfold hysen.schedule_times.
    now rewrite index_take by lia. }
  assert (Hp : forall (n : nat) l hi, hi <= Z.of_nat n -> forall s,
            for_each (hysen.schedule_temp (take n l)) s (range 0 hi)
            = for_each (hysen.schedule_temp l) s (range 0 hi)).
  { intros n l hi Hhi. apply for_each_ext. intros i Hi s.
    apply elem_of_range in Hi. unfold hysen.schedule_temp.
    now rewrite index_take by lia. }
  destruct (bytearray _) as [p0|e]; cbn [mbind result_bind]; [|reflexivity].
  rewrite (Ht 6%nat) by lia.
  destruct (for_each _ p0 _) as [p1|e]; cbn [mbind result_bind]; [|reflexivity].
  rewrite (Ht 2%nat) by lia.
  destruct (for_each _ p1 _) as [p2|e]; cbn [mbind result_bind]; [|reflexivity].
  rewrite (Hp 6%nat) by lia.
  destruct (for_each _ p2 _) as [p3|e]; cbn [mbind result_bind]; [|reflexivity].
  now rewrite (Hp 2%nat) by lia.
Qed.

Lemma schedule_times_short (entries : list hysen.schedule_entry) (hi : Z) :
  len entries < hi ->
  forall s, exists e,
    for_each (hysen.schedule_times entries) s (range 0 hi) = Raise e.
Proof.
  intros Hlen. apply (for_each_raises _ _ (len entries)).
  - apply elem_of_range. pose proof (len_nonneg entries). lia.
  - intros s. exists IndexError. unfold hysen.schedule_times.
    now rewrite index_out_of_range by lia.
Qed.

Lemma schedule_payload_short (weekday weekend : list hysen.schedule_entry) :
  (length weekday < 6)%nat \/ (length weekend < 2)%nat ->
  exists e, hysen.schedule_payload weekday weekend = Raise e.
Proof.
  intros Hshort. unfold hysen.schedule_payload.
  destruct (bytearray _) as [p0|e]; cbn [mbind result_bind]; [|now exists e].
  destruct (decide (length weekday < 6)%nat) as [Hwd|Hwd].
  - destruct (schedule_times_short weekday 6 ltac:(unfold len; lia) p0)
      as [e ->]. now exists e.
  - destruct (for_each _ p0 _) as [p1|e]; cbn [mbind result_bind];
      [|now exists e].
    destruct (schedule_times_short weekend 2 ltac:(unfold len; lia) p1)
      as [e ->]. now exists e.
Qed.

Section hysen_schedule.
Context `{imports}.

(** C9. For every call of [set_schedule]: the command is the one built
    from the first six weekday entries and the first two weekend entries,
    so that entries past these are ignored; and when the weekday sequence
    has fewer than six entries or the weekend sequence fewer than two, the
    call raises an exception and no frame is sent. *)
Theorem set_schedule_lengths (weekday weekend : list hysen.schedule_entry)
    (tr : list event) :
  hysen.set_schedule weekday weekend tr
  = hysen.set_schedule (take 6 weekday) (take 2 weekend) tr /\
  ((length weekday < 6)%nat \/ (length weekend < 2)%nat ->
   exists e, hysen.set_schedule weekday weekend tr = (Raise e, tr)).
Proof.
  split.
  - unfold hysen.set_schedule. now rewrite schedule_payload_take.
  - intros Hshort. destruct (schedule_payload_short _ _ Hshort) as [e He].
    exists e. unfold hysen.set_schedule. cbn [mbind io_bind]. unfold lift.
    now rewrite He.
Qed.

End hysen_schedule.

(** Empty sequences are refused before anything is sent. *)
Lemma set_schedule_lengths_witness :
  let env := sample.environment [] in
  ((length (@nil hysen.schedule_entry) < 6)%nat
   \/ (length (@nil hysen.schedule_entry) < 2)%nat) /\
  exists e, @hysen.set_schedule env [] [] [] = (Raise e, []).
Proof.
  intros env. split.
  - left. cbn. lia.
  - apply (proj2 (@set_schedule_lengths env [] [] [])). left. cbn. lia.
Defined.

(** Seven weekday entries are not refused: the frame of the first six is
    sent and the call returns. *)
Lemma set_schedule_accepts_seven :
  let env := sample.environment
               [0x08; 0x00; 0x01; 0x03; 0x00; 0x00; 0x00; 0x08; 0x44; 0x0c] in
  let entry := {| hysen.start_hour := 6; hysen.start_minute := 30;
                  hysen.temp := Qc_of_Z 20 |} in
  let weekday := replicate 7 entry in
  let weekend := replicate 2 entry in
  length weekday <> 6%nat /\
  exists reply frame,
    @hysen.set_schedule env weekday weekend [] = (Ok reply, [Sent 0x6a frame]) /\
    @hysen.set_schedule env (take 6 weekday) weekend []
    = (Ok reply, [Sent 0x6a frame]).
Proof.
  intros env entry weekday weekend. split; [discriminate|].
  eexists _, _. split; vm_compute; reflexivity.
Qed.

(** ** The air conditioner's status *)

(** Running the monadic glue once the results of the steps are known. *)
Ltac run_io :=
  cbv beta iota delta
    [mbind mret io_bind io_ret result_bind result_ret lift print].

Lemma index_byte_at (l : list Z) (i : Z) :
  0 <= i < len l -> index l i = Ok (byte_at l i).
Proof.
  intros Hi. destruct (index_in_range l i Hi) as (x & Hx & ->).
  unfold byte_at. now rewrite Hx.
Qed.

Lemma decode_fields_32 (p : list Z) :
  len p = 32 -> tornado.decode_fields p = Ok (state_fields p).
Proof.
  intros Hlen. unfold tornado.decode_fields.
  rewrite !index_byte_at by (rewrite Hlen; lia). reflexivity.
Qed.

Lemma state_fields_complete (p : list Z) (k : string) :
  k ∈ tornado.arg_names -> is_Some (state_fields p !! k).
Proof.
  unfold tornado.arg_names, state_fields. intros Hk.
  repeat (apply elem_of_cons in Hk as [->|Hk]; [simplify_map_eq; eauto|]).
  inversion Hk.
Qed.

Lemma decode_state_32 (p : list Z) (tr : list event) :
  len p = 32 ->
  tornado.decode_state p tr =
    (Ok (<["received_payload" := VBytes p]> (state_fields p)),
     if bool_decide ((byte_at p 0x19, byte_at p 0x1a) = expected_checksum p)
     then tr
     else tr ++ [Printed (tornado.checksum_fail_line (expected_checksum p))]).
Proof.
  intros Hlen. unfold tornado.decode_state, tornado.checksum_matches.
  rewrite Hlen, decode_fields_32 by assumption.
  rewrite !index_byte_at by (rewrite Hlen; lia).
  fold (expected_checksum p). destruct (expected_checksum p) as [c0 c1].
  unfold truthy. rewrite Hlen. run_io. cbn [fst snd negb].
  change (32 =? 32) with true. change (32 =? 0) with false. cbv beta iota.
  destruct (byte_at p 25 =? c0) eqn:E0; [destruct (byte_at p 26 =? c1) eqn:E1|];
    cbn [negb].
  - apply Z.eqb_eq in E0, E1. rewrite bool_decide_eq_true_2; congruence.
  - apply Z.eqb_neq in E1. rewrite bool_decide_eq_false_2; congruence.
  - apply Z.eqb_neq in E0. rewrite bool_decide_eq_false_2; congruence.
Qed.

Lemma decode_state_other (p : list Z) (tr : list event) :
  len p <> 32 -> tornado.decode_state p tr = (Raise AssertionError, tr).
Proof.
  intros Hlen. unfold tornado.decode_state.
  replace (len p =? 32) with false by lia. now run_io.
Qed.

Lemma sent_packets_app (tr tr' : list event) :
  sent_packets (tr ++ tr') = sent_packets tr ++ sent_packets tr'.
Proof. apply omap_app. Qed.

Lemma decode_state_sent (p : list Z) (tr : list event) :
  sent_packets (snd (tornado.decode_state p tr)) = sent_packets tr.
Proof.
  destruct (decide (len p = 32)) as [Hlen|Hlen].
  - rewrite decode_state_32 by assumption. cbn [snd].
    case_bool_decide; [reflexivity|].
    rewrite sent_packets_app. cbn. apply app_nil_r.
  - now rewrite decode_state_other.
Qed.

Lemma known_speed_false (speed_L speed_R : Z) :
  known_speed speed_L speed_R = false ->
  tornado.decode_speed speed_L speed_R = tornado.unrecognized.
Proof.
  unfold known_speed. intros Hk. apply orb_false_elim in Hk as [Hin HR].
  apply bool_decide_eq_false in Hin. unfold tornado.decode_speed.
  rewrite HR.
  repeat match goal with
         | |- context [?a =? ?b] =>
             destruct (Z.eqb_spec a b); subst; cbn [andb]
         end;
    try reflexivity; exfalso; apply Hin; set_solver.
Qed.

Lemma unrecognized_not_named : tornado.unrecognized ∉ speed_names.
Proof.
  unfold speed_names, tornado.unrecognized. intros Hin.
  repeat (apply elem_of_cons in Hin as [Hin|Hin]; [discriminate|]).
  inversion Hin.
Qed.

Section tornado_status.
Context `{imports}.

Lemma send_short_states (tr : list event) :
  snd (tornado._send_short_payload 1 tr)
  = tr ++ [Sent 0x6a tornado.GET_STATES].
Proof.
  unfold tornado._send_short_payload. run_io.
  change (tornado.short_packet 1) with (Ok (A:=list Z) tornado.GET_STATES).
  cbv beta iota. unfold transmit.
  destruct (send_packet tr 106 tornado.GET_STATES); [|reflexivity].
  now destruct (check_error _).
Qed.

Lemma get_state_sent (tr : list event) :
  sent_packets (snd (tornado.get_state tr))
  = sent_packets tr ++ [tornado.GET_STATES].
Proof.
  unfold tornado.get_state. run_io. pose proof (send_short_states tr) as Hs.
  destruct (tornado._send_short_payload 1 tr) as [[p|e] tr']; cbn [snd] in *;
    subst tr'.
  - rewrite decode_state_sent. now rewrite sent_packets_app.
  - now rewrite sent_packets_app.
Qed.

Lemma get_state_Ok (tr tr1 : list event) (received : gmap string pyval) :
  tornado.get_state tr = (Ok received, tr1) ->
  exists p, len p = 32 /\
    received = <["received_payload" := VBytes p]> (state_fields p).
Proof.
  unfold tornado.get_state. run_io.
  destruct (tornado._send_short_payload 1 tr) as [[p|e] tr']; [|discriminate].
  destruct (decide (len p = 32)) as [Hlen|Hlen].
  - rewrite decode_state_32 by assumption. intros [= <- _]. now exists p.
  - now rewrite decode_state_other.
Qed.

(** C5. For every payload of 32 bytes returned for the status query whose
    bytes at 0x19 and 0x1a are not the checksum of its first 0x19 bytes,
    [get_state] does not raise: it returns the record with every field
    decoded, the same fields the decode gives whatever the checksum is, and
    the mismatch is printed as a [checksum fail] line. *)
Theorem get_state_checksum_soft_fail (payload : list Z) (tr tr' : list event) :
  tornado._send_short_payload 1 tr = (Ok payload, tr') ->
  len payload = 32 ->
  (byte_at payload 0x19, byte_at payload 0x1a) <> expected_checksum payload ->
  tornado.decode_fields payload = Ok (state_fields payload) /\
  (forall k, k ∈ tornado.arg_names -> is_Some (state_fields payload !! k)) /\
  tornado.get_state tr =
    (Ok (<["received_payload" := VBytes payload]> (state_fields payload)),
     tr' ++ [Printed (tornado.checksum_fail_line (expected_checksum payload))]).
Proof.
  intros Hsend Hlen Hsum. split; [now apply decode_fields_32|].
  split; [intros k; apply state_fields_complete|].
  unfold tornado.get_state. run_io. rewrite Hsend.
  rewrite decode_state_32 by assumption.
  now rewrite bool_decide_eq_false_2.
Qed.

(** With the checksum in place nothing is printed. *)
Lemma get_state_checksum_pass (payload : list Z) (tr tr' : list event) :
  tornado._send_short_payload 1 tr = (Ok payload, tr') ->
  len payload = 32 ->
  (byte_at payload 0x19, byte_at payload 0x1a) = expected_checksum payload ->
  tornado.get_state tr =
    (Ok (<["received_payload" := VBytes payload]> (state_fields payload)), tr').
Proof.
  intros Hsend Hlen Hsum. unfold tornado.get_state. run_io. rewrite Hsend.
  rewrite decode_state_32 by assumption.
  now rewrite bool_decide_eq_true_2.
Qed.

(** C10. For every payload of 32 bytes returned for the status query whose
    bytes at 0x0f and 0x10 match no entry of the fan-speed table,
    [get_state] does not raise and its [speed] entry is the string
    ['unrecognized value'], which is none of the known letters; the raw
    bytes are in the [received_payload] entry of the result. *)
Theorem get_state_unrecognized_speed (payload : list Z) (tr tr' : list event) :
  tornado._send_short_payload 1 tr = (Ok payload, tr') ->
  len payload = 32 ->
  known_speed (byte_at payload 0x0f) (byte_at payload 0x10) = false ->
  exists data tr'',
    tornado.get_state tr = (Ok data, tr'') /\
    data !! "speed" = Some (VStr "unrecognized value") /\
    (VStr "unrecognized value" ∉ speed_names) /\
    data !! "received_payload" = Some (VBytes payload).
Proof.
  intros Hsend Hlen Hk. unfold tornado.get_state. run_io. rewrite Hsend.
  rewrite decode_state_32 by assumption. eexists _, _. split; [reflexivity|].
  split; [|split; [apply unrecognized_not_named|apply lookup_insert_eq]].
  rewrite lookup_insert_ne by discriminate. unfold state_fields.
  do 3 (rewrite lookup_insert_ne by discriminate).
  rewrite lookup_insert_eq. f_equal. now apply known_speed_false.
Qed.

End tornado_status.

(** The sample status, whose checksum bytes are stale. *)
Lemma get_state_checksum_soft_fail_witness :
  let env := sample.environment sample.stale_status in
  let payload := sample.stale_status in
  let sent := [Sent 0x6a tornado.GET_STATES] in
  (@tornado._send_short_payload env 1 [] = (Ok payload, sent) /\
   len payload = 32 /\
   (byte_at payload 0x19, byte_at payload 0x1a) <> expected_checksum payload) /\
  @tornado.get_state env [] =
    (Ok (<["received_payload" := VBytes payload]> (state_fields payload)),
     sent ++ [Printed "checksum fail ['4a', 'b9']"]).
Proof.
  intros env payload sent.
  assert (Hsum : (byte_at payload 0x19, byte_at payload 0x1a)
                 <> expected_checksum payload)
    by (vm_compute; discriminate).
  split; [repeat split; exact Hsum|].
  apply (proj2 (proj2 (@get_state_checksum_soft_fail env payload [] sent
                         eq_refl eq_refl Hsum))).
Defined.

(** The sample status with the speed bytes 0x01, 0x00. *)
Lemma get_state_unrecognized_speed_witness :
  let payload := <[0x0f%nat := 0x01]> sample.stale_status in
  let env := sample.environment payload in
  (@tornado._send_short_payload env 1 []
     = (Ok payload, [Sent 0x6a tornado.GET_STATES]) /\
   len payload = 32 /\
   known_speed (byte_at payload 0x0f) (byte_at payload 0x10) = false) /\
  exists data tr'',
    @tornado.get_state env [] = (Ok data, tr'') /\
    data !! "speed" = Some (VStr "unrecognized value") /\
    (VStr "unrecognized value" ∉ speed_names) /\
    data !! "received_payload" = Some (VBytes payload).
Proof.
  intros payload env. split; [repeat split|].
  apply (@get_state_unrecognized_speed env payload []
           [Sent 0x6a tornado.GET_STATES] eq_refl eq_refl eq_refl).
Defined.

(** Two payloads with different unrecognized speed bytes give the same
    [speed] entry: the entry does not carry the raw value. *)
Lemma unrecognized_speed_drops_raw :
  let p1 := <[0x0f%nat := 0x00]> sample.stale_status in
  let p2 := <[0x0f%nat := 0x01]> sample.stale_status in
  (byte_at p1 0x0f, byte_at p1 0x10) <> (byte_at p2 0x0f, byte_at p2 0x10) /\
  known_speed (byte_at p1 0x0f) (byte_at p1 0x10) = false /\
  known_speed (byte_at p2 0x0f) (byte_at p2 0x10) = false /\
  exists d1 d2 t1 t2,
    @tornado.get_state (sample.environment p1) [] = (Ok d1, t1) /\
    @tornado.get_state (sample.environment p2) [] = (Ok d2, t2) /\
    d1 !! "speed" = Some (VStr "unrecognized value") /\
    d2 !! "speed" = d1 !! "speed".
Proof.
  intros p1 p2. split; [vm_compute; discriminate|].
  split; [reflexivity|]. split; [reflexivity|].
  eexists _, _, _, _.
  split; [vm_compute; reflexivity|]. split; [vm_compute; reflexivity|].
  split; vm_compute; reflexivity.
Qed.

(** ** The air conditioner's [set_advanced] *)

Lemma fill_missing_step (received args : gmap string pyval) (n : string) :
  is_Some (received !! n) ->
  exists args', tornado.fill_missing received args n = Ok args'.
Proof.
  intros [v' Hv']. unfold tornado.fill_missing, getitem. rewrite Hv'.
  destruct (args !! n) as [v|]; [destruct (eqb v VNone)|]; cbn; eauto.
Qed.

Lemma fill_missing_total (received args : gmap string pyval)
    (names : list string) :
  (forall k, k ∈ names -> is_Some (received !! k)) ->
  exists merged,
    for_each (tornado.fill_missing received) args names = Ok merged.
Proof.
  revert args. induction names as [|n names IH]; intros args Hall.
  - now exists args.
  - cbn [for_each].
    destruct (fill_missing_step received args n) as [args' ->];
      [apply Hall; left|].
    cbn [mbind result_bind]. apply IH. intros k Hk. apply Hall. now right.
Qed.

Lemma fill_missing_lookup (received : gmap string pyval)
    (names : list string) :
  forall (args merged : gmap string pyval),
    for_each (tornado.fill_missing received) args names = Ok merged ->
    forall k,
      merged !! k =
        if decide (k ∈ names)
        then v ← args !! k; effective v (received !! k)
        else args !! k.
Proof.
  induction names as [|n names IH]; intros args merged Hm k.
  - injection Hm as <-. now rewrite decide_False by apply not_elem_of_nil.
  - cbn [for_each] in Hm. invert_bind Hm. rewrite (IH _ _ Hm k).
    assert (Hstep : forall j, j <> n -> v !! j = args !! j).
    { intros j Hj. unfold tornado.fill_missing in E.
      destruct (args !! n) as [w|]; [destruct (eqb w VNone)|];
        try (injection E as <-; reflexivity).
      invert_bind E. injection E as <-. now rewrite lookup_insert_ne. }
    assert (Hn : v !! n ≫= (fun w => effective w (received !! n))
                 = args !! n ≫= (fun w => effective w (received !! n))
                 /\ (n ∉ names -> v !! n
                     = args !! n ≫= (fun w => effective w (received !! n)))).
    { unfold tornado.fill_missing in E.
      destruct (args !! n) as [w|] eqn:Hw; [destruct (eqb w VNone) eqn:Hnone|].
      - invert_bind E. injection E as <-. rewrite lookup_insert_eq.
        unfold getitem in E0. destruct (received !! n) as [r|]; [|discriminate].
        injection E0 as ->. cbn. unfold effective. rewrite Hnone.
        split; [now destruct (eqb v0 VNone)|reflexivity].
      - injection E as <-. rewrite Hw. cbn. unfold effective. rewrite Hnone.
        split; reflexivity.
      - injection E as <-. rewrite Hw. split; reflexivity. }
    destruct (decide (k = n)) as [->|Hk].
    + rewrite (decide_True (P := n ∈ n :: names)) by left.
      destruct (decide (n ∈ names)); [apply Hn | now apply Hn].
    + rewrite Hstep by assumption.
      destruct (decide (k ∈ names)) as [Hin|Hin].
      * now rewrite decide_True by (now right).
      * rewrite decide_False; [reflexivity|].
        intros Hc. apply elem_of_cons in Hc as [?|?]; contradiction.
Qed.

Section tornado_set_advanced.
Context `{imports}.
Variables state mode set_temp speed swing_v swing_h sleep display health : pyval.

Local Abbreviation args :=
  (tornado.initial_args state mode set_temp speed swing_v swing_h sleep
     display health).

Local Abbreviation run :=
  (tornado.set_advanced state mode set_temp speed swing_v swing_h sleep
     display health).

Lemma merged_set_temp (received merged : gmap string pyval) :
  for_each (tornado.fill_missing received) args tornado.arg_names = Ok merged ->
  merged !! "set_temp" = effective set_temp (received !! "set_temp").
Proof.
  intros Hm. rewrite (fill_missing_lookup _ _ _ _ Hm).
  rewrite decide_True by (unfold tornado.arg_names; set_solver).
  reflexivity.
Qed.

Lemma merged_swing_H (received merged : gmap string pyval) :
  for_each (tornado.fill_missing received) args tornado.arg_names = Ok merged ->
  merged !! "swing_H" = None.
Proof.
  intros Hm. rewrite (fill_missing_lookup _ _ _ _ Hm).
  rewrite decide_False; [reflexivity|].
  unfold tornado.arg_names. intros Hin.
  repeat (apply elem_of_cons in Hin as [Hin|Hin]; [discriminate|]).
  inversion Hin.
Qed.

(** What a call does once the current state is fetched and merged. *)
Lemma set_advanced_after_merge (tr tr1 : list event)
    (received merged : gmap string pyval) :
  tornado.get_state tr = (Ok received, tr1) ->
  for_each (tornado.fill_missing received) args tornado.arg_names = Ok merged ->
  run tr =
    match tornado.temperature_ok merged with
    | Ok true => (Raise (KeyError "swing_H"), tr1)
    | Ok false => (Raise AssertionError, tr1)
    | Raise e => (Raise e, tr1)
    end.
Proof.
  intros Hget Hm. pose proof (merged_swing_H _ _ Hm) as HswH.
  unfold tornado.set_advanced. run_io. cbv zeta.
  rewrite Hget. cbv beta iota. rewrite Hm. cbv beta iota.
  destruct (tornado.temperature_ok merged) as [[|]|e]; cbv beta iota;
    try reflexivity.
  unfold tornado.horizontal_swing, getitem. now rewrite HswH.
Qed.

Lemma temperature_ok_valid (merged : gmap string pyval) (t : pyval) (a : Qc) :
  merged !! "set_temp" = Some t -> number t = Ok a ->
  valid_temperature a -> tornado.temperature_ok merged = Ok true.
Proof.
  intros Ht Ha (H16 & H32 & Hw). unfold tornado.temperature_ok, getitem.
  rewrite Ht. cbn [mbind result_bind]. rewrite Ha. cbn [mbind result_bind].
  rewrite !bool_decide_eq_true_2 by assumption. now rewrite Hw.
Qed.

Lemma temperature_ok_invalid (merged : gmap string pyval) (t : pyval) (a : Qc) :
  merged !! "set_temp" = Some t -> number t = Ok a ->
  ~ valid_temperature a -> tornado.temperature_ok merged = Ok false.
Proof.
  intros Ht Ha Hv. unfold tornado.temperature_ok, getitem.
  rewrite Ht. cbn [mbind result_bind]. rewrite Ha. cbn [mbind result_bind].
  repeat case_bool_decide; try reflexivity.
  destruct (is_whole _) eqn:Hw; [|reflexivity].
  exfalso. apply Hv. now repeat split.
Qed.

Lemma received_complete (tr tr1 : list event) (received : gmap string pyval) :
  tornado.get_state tr = (Ok received, tr1) ->
  forall k, k ∈ tornado.arg_names -> is_Some (received !! k).
Proof.
  intros Hget k Hk. destruct (get_state_Ok _ _ _ Hget) as (p & _ & ->).
  rewrite lookup_insert. case_decide; [eauto|].
  now apply state_fields_complete.
Qed.

(** C6. For every call of [set_advanced] in which the current state is
    fetched and the temperature in effect (the argument, or the fetched one
    when the argument is [None]) is a number below 16, above 32 or not a
    multiple of one half, the call fails with [AssertionError]; it fails
    after the status query, which is the only packet sent: no set command
    is transmitted. *)
Theorem set_advanced_temperature_assert (tr tr1 : list event)
    (received : gmap string pyval) (t : pyval) (a : Qc) :
  tornado.get_state tr = (Ok received, tr1) ->
  effective set_temp (received !! "set_temp") = Some t ->
  number t = Ok a ->
  ~ valid_temperature a ->
  tornado.set_advanced state mode set_temp speed swing_v swing_h sleep
    display health tr = (Raise AssertionError, tr1) /\
  sent_packets tr1 = sent_packets tr ++ [tornado.GET_STATES].
Proof.
  intros Hget Ht Ha Hv.
  destruct (fill_missing_total received args tornado.arg_names
              (received_complete _ _ _ Hget)) as [merged Hm].
  split.
  - rewrite (set_advanced_after_merge _ _ _ _ Hget Hm).
    rewrite (temperature_ok_invalid merged t a); try assumption.
    + reflexivity.
    + now rewrite (merged_set_temp _ _ Hm).
  - pose proof (get_state_sent tr) as Hs. now rewrite Hget in Hs.
Qed.

(** C7. No call of [set_advanced] returns, and the only packet a call
    sends is the status query: no set command reaches the device.  When
    the current state is fetched and the temperature in effect passes the
    assertion, the call raises [KeyError] for the key ['swing_H'],
    whatever the swing, speed and mode arguments are. *)
Theorem set_advanced_key_error (tr : list event) :
  let result :=
    tornado.set_advanced state mode set_temp speed swing_v swing_h sleep
      display health tr in
  is_ok (fst result) = false /\
  sent_packets (snd result) = sent_packets tr ++ [tornado.GET_STATES] /\
  forall received tr1 t a,
    tornado.get_state tr = (Ok received, tr1) ->
    effective set_temp (received !! "set_temp") = Some t ->
    number t = Ok a ->
    valid_temperature a ->
    result = (Raise (KeyError "swing_H"), tr1).
Proof.
  intros result. subst result.
  pose proof (get_state_sent tr) as Hs.
  destruct (tornado.get_state tr) as [[received|e] tr1] eqn:Hget;
    cbn [snd] in Hs.
  - destruct (fill_missing_total received args tornado.arg_names
                (received_complete _ _ _ Hget)) as [merged Hm].
    rewrite (set_advanced_after_merge _ _ _ _ Hget Hm).
    repeat split.
    + now destruct (tornado.temperature_ok merged) as [[|]|e].
    + now destruct (tornado.temperature_ok merged) as [[|]|e].
    + intros received' tr1' t a [= <- <-] Ht Ha Hv.
      rewrite (temperature_ok_valid merged t a); try assumption.
      * reflexivity.
      * now rewrite (merged_set_temp _ _ Hm).
  - assert (Hrun : run tr = (Raise e, tr1)).
    { unfold tornado.set_advanced. run_io. now rewrite Hget. }
    rewrite Hrun. repeat split; [assumption|discriminate].
Qed.

End tornado_set_advanced.

(** The sample device queried from an empty trace. *)
Lemma sample_get_state :
  @tornado.get_state (sample.environment sample.stale_status) [] =
    (Ok (<["received_payload" := VBytes sample.stale_status]>
           (state_fields sample.stale_status)),
     [Sent 0x6a tornado.GET_STATES; Printed "checksum fail ['4a', 'b9']"]).
Proof.
  unfold tornado.get_state. run_io.
  change (@tornado._send_short_payload
            (sample.environment sample.stale_status) 1 [])
    with (Ok (A:=list Z) sample.stale_status, [Sent 0x6a tornado.GET_STATES]).
  cbv beta iota. rewrite decode_state_32 by reflexivity.
  rewrite bool_decide_eq_false_2 by (vm_compute; discriminate).
  reflexivity.
Defined.

Lemma fifteen_invalid : ~ valid_temperature (Qc_of_Z 15).
Proof. intros [H16 _]. apply Z2Qc_inj_le in H16. lia. Defined.

(** A call asking for 15 degrees. *)
Lemma set_advanced_temperature_assert_witness :
  let env := sample.environment sample.stale_status in
  let received := <["received_payload" := VBytes sample.stale_status]>
                    (state_fields sample.stale_status) in
  let tr1 := [Sent 0x6a tornado.GET_STATES;
              Printed "checksum fail ['4a', 'b9']"] in
  let t := VFloat (Qc_of_Z 15) in
  (@tornado.get_state env [] = (Ok received, tr1) /\
   effective t (received !! "set_temp") = Some t /\
   number t = Ok (Qc_of_Z 15) /\
   ~ valid_temperature (Qc_of_Z 15)) /\
  @tornado.set_advanced env VNone VNone t VNone VNone VNone VNone VNone VNone []
    = (Raise AssertionError, tr1) /\
  sent_packets tr1 = sent_packets [] ++ [tornado.GET_STATES].
Proof.
  intros env received tr1 t. split.
  - split; [exact sample_get_state|].
    split; [reflexivity|]. split; [reflexivity | exact fifteen_invalid].
  - apply (@set_advanced_temperature_assert env VNone VNone t VNone VNone
             VNone VNone VNone VNone [] tr1 received t (Qc_of_Z 15)
             sample_get_state eq_refl eq_refl fifteen_invalid).
Defined.

(** The call asking for 15 degrees fails only after the status query has
    been sent to the device. *)
Lemma set_advanced_fetches_first :
  let env := sample.environment sample.stale_status in
  let result :=
    @tornado.set_advanced env VNone VNone (VFloat (Qc_of_Z 15)) VNone VNone
      VNone VNone VNone VNone [] in
  fst result = Raise AssertionError /\
  sent_packets (snd result) = [tornado.GET_STATES] /\
  sent_packets (snd result) <> sent_packets [].
Proof.
  intros env result.
  assert (Hrun : result = (Raise AssertionError,
                           [Sent 0x6a tornado.GET_STATES;
                            Printed "checksum fail ['4a', 'b9']"]))
    by (vm_compute; reflexivity).
  rewrite Hrun. repeat split. discriminate.
Qed.

Lemma twenty_four_valid : valid_temperature (Qc_of_Z 24).
Proof.
  split; [apply (proj1 (Z2Qc_inj_le 16 24)); lia|].
  split; [apply (proj1 (Z2Qc_inj_le 24 32)); lia | reflexivity].
Defined.

(** A call that leaves everything to the current state, which holds 24
    degrees. *)
Lemma set_advanced_key_error_witness :
  let env := sample.environment sample.stale_status in
  let received := <["received_payload" := VBytes sample.stale_status]>
                    (state_fields sample.stale_status) in
  let tr1 := [Sent 0x6a tornado.GET_STATES;
              Printed "checksum fail ['4a', 'b9']"] in
  let t := VFloat (Qc_of_Z 24) in
  (@tornado.get_state env [] = (Ok received, tr1) /\
   effective VNone (received !! "set_temp") = Some t /\
   number t = Ok (Qc_of_Z 24) /\
   valid_temperature (Qc_of_Z 24)) /\
  @tornado.set_advanced env VNone VNone VNone VNone VNone VNone VNone VNone
    VNone [] = (Raise (KeyError "swing_H"), tr1).
Proof.
  intros env received tr1 t.
  assert (Ht : effective VNone (received !! "set_temp") = Some t).
  { cbn [effective eqb]. unfold received, state_fields.
    rewrite lookup_insert_ne by discriminate.
    do 7 (rewrite lookup_insert_ne by discriminate).
    rewrite lookup_insert_eq. unfold t, tornado.decode_set_temp.
    do 2 f_equal. apply Qc_is_canon. reflexivity. }
  split.
  - split; [exact sample_get_state|].
    split; [exact Ht|]. split; [reflexivity | exact twenty_four_valid].
  - apply (proj2 (proj2 (@set_advanced_key_error env VNone VNone VNone VNone
                           VNone VNone VNone VNone VNone []))
             received tr1 t (Qc_of_Z 24) sample_get_state Ht eq_refl
             twenty_four_valid).
Defined.

(** * Further properties *)

(** ** The heating controller's requests *)

Section hysen_requests.
Context `{imports}.

Lemma build_request_frame (payload : list Z) :
  is_bytes payload = true -> len payload + 2 <= 255 ->
  hysen.build_request payload = Ok (frame_of (calculate_crc16 payload) payload).
Proof.
  intros Hbytes Hlen. pose proof (len_nonneg payload).
  unfold hysen.build_request, bytearray, extend, append.
  replace (is_bytes [len payload + 2; 0]) with true
    by (symmetry; apply is_bytes_Forall; repeat constructor; lia).
  cbn [mbind result_bind]. rewrite Hbytes. cbn [mbind result_bind].
  rewrite !land_255_byte. cbn [mbind result_bind].
  unfold frame_of. now rewrite <- !app_assoc.
Qed.

Lemma build_request_refused (payload : list Z) :
  is_bytes payload = false \/ 255 < len payload + 2 ->
  hysen.build_request payload = Raise byte_range_error.
Proof.
  intros [Hbytes|Hlen]; [|now apply build_request_too_long].
  unfold hysen.build_request, bytearray, extend.
  destruct (is_bytes [len payload + 2; 0]); [|reflexivity].
  cbn [mbind result_bind]. now rewrite Hbytes.
Qed.

(** The response check on a payload wrapped with a length byte and a
    trailer [a], [b]. *)
Lemma parse_response_framed (payload : list Z) (a b : Z) :
  let crc := calculate_crc16 payload in
  hysen.parse_response ([len payload + 2; 0] ++ payload ++ [a; b]) =
    if a =? Z.land crc 0xFF
    then if b =? Z.land (Z.shiftr crc 8) 0xFF
         then Ok payload else Raise hysen.crc_error
    else Raise hysen.crc_error.
Proof.
  intros crc. set (frame := [len payload + 2; 0] ++ payload ++ [a; b]).
  pose proof (len_nonneg payload) as Hn.
  assert (Hslice : slice frame 2 (len payload + 2) = payload).
  { pose proof (slice_middle [len payload + 2; 0] payload [a; b]) as Hmid.
    change (len [len payload + 2; 0]) with 2 in Hmid.
    now rewrite (Z.add_comm 2) in Hmid. }
  assert (Hframe : len frame = len payload + 4).
  { unfold frame. rewrite !len_app.
    change (len [len payload + 2; 0]) with 2. change (len [a; b]) with 2.
    lia. }
  assert (Ha : frame !! Z.to_nat (len payload + 2) = Some a).
  { replace (Z.to_nat (len payload + 2))
      with (2 + length payload + 0)%nat by (unfold len; lia).
    unfold frame. now rewrite lookup_app_app. }
  assert (Hb : frame !! Z.to_nat (len payload + 2 + 1) = Some b).
  { replace (Z.to_nat (len payload + 2 + 1))
      with (2 + length payload + 1)%nat by (unfold len; lia).
    unfold frame. now rewrite lookup_app_app. }
  unfold hysen.parse_response.
  change (index frame 0) with (Ok (A:=Z) (len payload + 2)).
  cbn [mbind result_bind]. rewrite Hframe.
  replace (len payload + 2 + 2 >? len payload + 4) with false by lia.
  rewrite Hslice. fold crc.
  rewrite (index_lookup frame (len payload + 2) _) by (lia || exact Ha).
  cbn [mbind result_bind]. destruct (a =? Z.land crc 255); [|reflexivity].
  rewrite (index_lookup frame (len payload + 2 + 1) _) by (lia || exact Hb).
  reflexivity.
Qed.

(** X1. A payload that holds a value outside 0..255, or that is longer
    than 253 bytes, is refused with [ValueError] before anything is sent. *)
Theorem send_request_refuses (payload : list Z) (tr : list event) :
  is_bytes payload = false \/ 255 < len payload + 2 ->
  hysen.send_request payload tr = (Raise byte_range_error, tr).
Proof.
  intros Hbad. unfold hysen.send_request. run_io.
  now rewrite (build_request_refused payload Hbad).
Qed.

(** X2. For a payload of at most 253 bytes, [send_request] hands exactly
    one packet to the transport, with command 0x6a: the frame of the
    payload, whatever the device answers. *)
Theorem send_request_one_frame (payload : list Z) (tr : list event) :
  is_bytes payload = true -> len payload + 2 <= 255 ->
  snd (hysen.send_request payload tr)
  = tr ++ [Sent 0x6a (frame_of (calculate_crc16 payload) payload)].
Proof.
  intros Hbytes Hlen. unfold hysen.send_request. run_io.
  rewrite (build_request_frame payload Hbytes Hlen). cbv beta iota.
  unfold transmit. destruct (send_packet _ _ _); [|reflexivity].
  destruct (check_error _); [|reflexivity].
  destruct (decrypt _); reflexivity.
Qed.

(** X3. An exception of [check_error] on bytes 0x22..0x23 of the response
    is the outcome of [send_request]: the response is then neither
    decrypted nor checked. *)
Theorem send_request_device_error (payload response : list Z)
    (tr : list event) (e : exn) :
  is_bytes payload = true -> len payload + 2 <= 255 ->
  let frame := frame_of (calculate_crc16 payload) payload in
  send_packet tr 0x6a frame = Ok response ->
  check_error (slice response 0x22 0x24) = Raise e ->
  hysen.send_request payload tr = (Raise e, tr ++ [Sent 0x6a frame]).
Proof.
  intros Hbytes Hlen frame Hsend Herr. unfold hysen.send_request. run_io.
  rewrite (build_request_frame payload Hbytes Hlen). cbv beta iota.
  unfold transmit. fold frame. now rewrite Hsend, Herr.
Qed.

(** X4. When the device accepts the request and the decrypted response is
    the frame of some [reply], [send_request] returns [reply]. *)
Theorem send_request_reply (payload response reply : list Z)
    (tr : list event) :
  is_bytes payload = true -> len payload + 2 <= 255 ->
  let frame := frame_of (calculate_crc16 payload) payload in
  send_packet tr 0x6a frame = Ok response ->
  check_error (slice response 0x22 0x24) = Ok tt ->
  decrypt (slice_from response 0x38)
  = Ok (frame_of (calculate_crc16 reply) reply) ->
  hysen.send_request payload tr = (Ok reply, tr ++ [Sent 0x6a frame]).
Proof.
  intros Hbytes Hlen frame Hsend Herr Hdec. unfold hysen.send_request. run_io.
  rewrite (build_request_frame payload Hbytes Hlen). cbv beta iota.
  unfold transmit. fold frame. rewrite Hsend, Herr, Hdec.
  unfold frame_of. rewrite parse_response_framed.
  now rewrite !Z.eqb_refl.
Qed.

(** X5. A response made of a correct length byte, a zero byte, a payload
    and two trailer bytes that are not the CRC-16 of the payload, low byte
    first, is rejected with the CRC error. *)
Theorem parse_response_detects_trailer (payload : list Z) (a b : Z) :
  let crc := calculate_crc16 payload in
  (a, b) <> (Z.land crc 0xFF, Z.land (Z.shiftr crc 8) 0xFF) ->
  hysen.parse_response ([len payload + 2; 0] ++ payload ++ [a; b])
  = Raise hysen.crc_error.
Proof.
  intros crc Hne. rewrite parse_response_framed. fold crc.
  destruct (Z.eqb_spec a (Z.land crc 255)) as [->|]; [|reflexivity].
  destruct (Z.eqb_spec b (Z.land (Z.shiftr crc 8) 255)) as [->|];
    [|reflexivity].
  now destruct Hne.
Qed.

End hysen_requests.

Lemma send_request_refuses_witness :
  let env := sample.environment [] in
  (is_bytes [256] = false \/ 255 < len [256] + 2) /\
  @hysen.send_request env [256] [] = (Raise byte_range_error, []).
Proof.
  intros env. split; [now left|].
  apply (@send_request_refuses env [256] []). now left.
Defined.

Lemma send_request_one_frame_witness :
  let env := sample.environment [] in
  let payload := [0x01; 0x03; 0x00; 0x00; 0x00; 0x08] in
  (is_bytes payload = true /\ len payload + 2 <= 255) /\
  snd (@hysen.send_request env payload [])
  = [Sent 0x6a [0x08; 0x00; 0x01; 0x03; 0x00; 0x00; 0x00; 0x08; 0x44; 0x0c]].
Proof.
  intros env payload. split; [split; [reflexivity | vm_compute; discriminate]|].
  apply (@send_request_one_frame env payload []);
    [reflexivity | vm_compute; discriminate].
Defined.

Lemma send_request_device_error_witness :
  let env := sample.rejecting in
  let payload := [0x01; 0x03; 0x00; 0x00; 0x00; 0x08] in
  let frame := [0x08; 0x00; 0x01; 0x03; 0x00; 0x00; 0x00; 0x08; 0x44; 0x0c] in
  (is_bytes payload = true /\ len payload + 2 <= 255 /\
   @send_packet env [] 0x6a frame = Ok sample.error_response /\
   @check_error env (slice sample.error_response 0x22 0x24)
   = Raise (CollaboratorError "device error")) /\
  @hysen.send_request env payload []
  = (Raise (CollaboratorError "device error"), [Sent 0x6a frame]).
Proof.
  intros env payload frame. split.
  - split; [reflexivity|]. split; [vm_compute; discriminate|].
    split; reflexivity.
  - apply (@send_request_device_error env payload sample.error_response []
             (CollaboratorError "device error"));
      [reflexivity | vm_compute; discriminate | reflexivity | reflexivity].
Defined.

Lemma send_request_reply_witness :
  let reply := [0x01; 0x03; 0x00; 0x00; 0x00; 0x08] in
  let body := [0x08; 0x00; 0x01; 0x03; 0x00; 0x00; 0x00; 0x08; 0x44; 0x0c] in
  let env := sample.environment body in
  (is_bytes reply = true /\ len reply + 2 <= 255 /\
   @send_packet env [] 0x6a body = Ok (replicate 0x38 0 ++ body) /\
   @check_error env (slice (replicate 0x38 0 ++ body) 0x22 0x24) = Ok tt /\
   @decrypt env (slice_from (replicate 0x38 0 ++ body) 0x38) = Ok body) /\
  @hysen.send_request env reply [] = (Ok reply, [Sent 0x6a body]).
Proof.
  intros reply body env. split.
  - split; [reflexivity|]. split; [vm_compute; discriminate|].
    repeat split.
  - apply (@send_request_reply env reply (replicate 0x38 0 ++ body) reply []);
      [reflexivity | vm_compute; discriminate | reflexivity | reflexivity
      | reflexivity].
Defined.

Lemma parse_response_detects_trailer_witness :
  let env := sample.environment [] in
  let payload := [0x01; 0x03; 0x00; 0x00; 0x00; 0x08] in
  (0x44, 0x0d) <> (Z.land (@calculate_crc16 env payload) 0xFF,
                   Z.land (Z.shiftr (@calculate_crc16 env payload) 8) 0xFF) /\
  @hysen.parse_response env
    [0x08; 0x00; 0x01; 0x03; 0x00; 0x00; 0x00; 0x08; 0x44; 0x0d]
  = Raise hysen.crc_error.
Proof.
  intros env payload.
  assert (Hne : (0x44, 0x0d)
                <> (Z.land (@calculate_crc16 env payload) 0xFF,
                    Z.land (Z.shiftr (@calculate_crc16 env payload) 8) 0xFF))
    by (vm_compute; discriminate).
  split; [exact Hne|].
  apply (@parse_response_detects_trailer env payload 0x44 0x0d Hne).
Defined.

(** ** The heating controller's status, field by field *)

Lemma index_if (l : list Z) (i : Z) :
  0 <= i ->
  index l i = if i <? len l then Ok (byte_at l i) else Raise IndexError.
Proof.
  intros Hi. destruct (Z.ltb_spec i (len l)).
  - now apply index_byte_at.
  - now apply index_out_of_range.
Qed.

Lemma decode_full_status_spec (p : list Z) :
  hysen.decode_full_status p =
    if 47 <=? len p then Ok (status_of p) else Raise IndexError.
Proof.
  unfold hysen.decode_full_status, hysen.read_entry.
  change (range 0 6) with [0; 1; 2; 3; 4; 5].
  change (range 6 8) with [6; 7].
  cbv beta iota delta [mbind mret result_bind result_ret mapM].
  destruct (47 <=? len p) eqn:Hlen.
  - apply Z.leb_le in Hlen.
    rewrite !index_byte_at by lia. reflexivity.
  - apply Z.leb_gt in Hlen. rewrite !index_if by lia.
    pose proof (len_nonneg p) as Hn. revert Hlen Hn.
    generalize (len p) as n. intros n Hlen Hn.
    destruct n as [|n|n]; [reflexivity| |lia].
    do 6 (try (destruct n as [n|n|]; try lia; try reflexivity)).
Qed.

(** X6. The status decode succeeds exactly on payloads of at least 47
    bytes, where it returns the fields read at their fixed offsets; on
    every shorter payload, the empty one included, it raises
    [IndexError]. *)
Theorem decode_full_status_length (p : list Z) :
  hysen.decode_full_status p =
    if 47 <=? len p then Ok (status_of p) else Raise IndexError.
Proof. apply decode_full_status_spec. Qed.

(** X7. Every decoded status has six weekday entries and two weekend
    entries. *)
Theorem decode_full_status_schedule_shape (p : list Z)
    (st : hysen.full_status) :
  hysen.decode_full_status p = Ok st ->
  length (hysen.weekday st) = 6%nat /\ length (hysen.weekend st) = 2%nat.
Proof.
  rewrite decode_full_status_spec.
  destruct (47 <=? len p); [|discriminate].
  intros [= <-]. split; reflexivity.
Qed.

(** X8. On a payload of bytes, [get_temp] and [get_external_temp] read the
    temperatures the full status reports as [room_temp] and
    [external_temp]. *)
Theorem temperatures_agree (p : list Z) (st : hysen.full_status) :
  is_bytes p = true ->
  hysen.decode_full_status p = Ok st ->
  hysen.decode_temp p = Ok (hysen.room_temp st) /\
  hysen.decode_external_temp p = Ok (hysen.external_temp st).
Proof.
  intros Hbytes. rewrite decode_full_status_spec.
  destruct (47 <=? len p) eqn:Hlen; [|discriminate].
  apply Z.leb_le in Hlen. intros [= <-].
  assert (Hb : forall i, 0 <= i < len p -> Z.land (byte_at p i) 255 = byte_at p i).
  { intros i Hi. destruct (index_in_range p i Hi) as (x & Hx & _).
    unfold byte_at. rewrite Hx. cbn [default from_option]. unfold id.
    pose proof (is_bytes_lookup _ _ _ Hbytes Hx).
    change 255 with (Z.ones 8). rewrite Z.land_ones by lia.
    change (2 ^ 8) with 256. apply Z.mod_small. lia. }
  unfold hysen.decode_temp, hysen.decode_external_temp.
  rewrite !index_byte_at by lia. cbn [mbind result_bind status_of
    hysen.room_temp hysen.external_temp].
  now rewrite !Hb by lia.
Qed.

Lemma decode_full_status_schedule_shape_witness :
  let p := replicate 47 0 in
  hysen.decode_full_status p = Ok (status_of p) /\
  length (hysen.weekday (status_of p)) = 6%nat /\
  length (hysen.weekend (status_of p)) = 2%nat.
Proof.
  intros p.
  assert (Hp : hysen.decode_full_status p = Ok (status_of p))
    by apply decode_full_status_spec.
  split; [exact Hp|].
  apply (decode_full_status_schedule_shape p (status_of p) Hp).
Defined.

Lemma temperatures_agree_witness :
  let p := replicate 5 0 ++ [0x28] ++ replicate 41 0 in
  (is_bytes p = true /\ hysen.decode_full_status p = Ok (status_of p)) /\
  hysen.decode_temp p = Ok (hysen.room_temp (status_of p)) /\
  hysen.decode_external_temp p = Ok (hysen.external_temp (status_of p)).
Proof.
  intros p.
  assert (Hp : hysen.decode_full_status p = Ok (status_of p))
    by apply decode_full_status_spec.
  split; [split; [reflexivity | exact Hp]|].
  apply (temperatures_agree p (status_of p) eq_refl Hp).
Defined.

(** ** The heating controller's schedule command *)

Lemma for_each_app {A S} (body : S -> A -> result S) (l1 l2 : list A) (s : S) :
  for_each body s (l1 ++ l2)
  = for_each body s l1 ≫= (fun s' => for_each body s' l2).
Proof.
  revert s. induction l1 as [|x l1 IH]; intros s; [reflexivity|].
  cbn [for_each app]. destruct (body s x) as [s'|e]; cbn [mbind result_bind];
    [apply IH | reflexivity].
Qed.

Lemma range_snoc (n : nat) :
  range 0 (Z.of_nat (S n)) = range 0 (Z.of_nat n) ++ [Z.of_nat n].
Proof.
  unfold range. rewrite !Z.sub_0_r, !Nat2Z.id.
  rewrite seq_S, fmap_app. reflexivity.
Qed.

Lemma int_of_half (t : Z) :
  int_of_float (half t * Qc_of_Z 2)%Qc = t.
Proof.
  assert (Heq : (half t * Qc_of_Z 2)%Qc = Qc_of_Z t).
  { apply Qc_is_canon. unfold half, Qc_of_Z. cbn [this Q2Qc Qcmult].
    rewrite !Qred_correct. unfold Qeq. cbn. lia. }
  rewrite Heq. unfold int_of_float, Qc_of_Z. cbn. apply Z.quot_1_r.
Qed.

Lemma schedule_times_loop (entries : list hysen.schedule_entry) (n : nat) :
  (n <= length entries)%nat ->
  forallb entry_valid (take n entries) = true ->
  forall acc,
    for_each (hysen.schedule_times entries) acc (range 0 (Z.of_nat n))
    = Ok (acc ++ times_of (take n entries)).
Proof.
  induction n as [|n IH]; intros Hn Hvalid acc.
  - cbn. now rewrite app_nil_r.
  - destruct (lookup_lt_is_Some_2 entries n ltac:(lia)) as [e He].
    rewrite (take_S_r _ _ _ He) in *.
    rewrite forallb_app in Hvalid. apply andb_prop in Hvalid as [Hv He'].
    cbn [forallb] in He'. rewrite andb_true_r in He'.
    unfold entry_valid in He'. apply andb_prop in He' as [He' _].
    apply andb_prop in He' as [Hh Hm].
    rewrite range_snoc, for_each_app, IH by (lia || assumption).
    cbn [mbind result_bind for_each]. unfold hysen.schedule_times.
    rewrite (index_lookup entries (Z.of_nat n) e)
      by (lia || now rewrite Nat2Z.id).
    cbn [mbind result_bind]. unfold append. rewrite Hh.
    cbn [mbind result_bind]. rewrite Hm. cbn [mbind result_bind].
    unfold times_of. rewrite bind_app. cbn.
    now rewrite <- !app_assoc.
Qed.

Lemma schedule_temp_loop (entries : list hysen.schedule_entry) (n : nat) :
  (n <= length entries)%nat ->
  forallb entry_valid (take n entries) = true ->
  forall acc,
    for_each (hysen.schedule_temp entries) acc (range 0 (Z.of_nat n))
    = Ok (acc ++ temps_of (take n entries)).
Proof.
  induction n as [|n IH]; intros Hn Hvalid acc.
  - cbn. now rewrite app_nil_r.
  - destruct (lookup_lt_is_Some_2 entries n ltac:(lia)) as [e He].
    rewrite (take_S_r _ _ _ He) in *.
    rewrite forallb_app in Hvalid. apply andb_prop in Hvalid as [Hv He'].
    cbn [forallb] in He'. rewrite andb_true_r in He'.
    unfold entry_valid in He'. apply andb_prop in He' as [_ Ht].
    rewrite range_snoc, for_each_app, IH by (lia || assumption).
    cbn [mbind result_bind for_each]. unfold hysen.schedule_temp.
    rewrite (index_lookup entries (Z.of_nat n) e)
      by (lia || now rewrite Nat2Z.id).
    cbn [mbind result_bind]. unfold append. rewrite Ht.
    cbn [mbind result_bind]. unfold temps_of. rewrite fmap_app. cbn.
    now rewrite <- !app_assoc.
Qed.

Lemma schedule_payload_layout (weekday weekend : list hysen.schedule_entry) :
  length weekday = 6%nat -> length weekend = 2%nat ->
  forallb entry_valid (weekday ++ weekend) = true ->
  hysen.schedule_payload weekday weekend =
    Ok ([0x01; 0x10; 0x00; 0x0a; 0x00; 0x0c; 0x18]
        ++ times_of weekday ++ times_of weekend
        ++ temps_of weekday ++ temps_of weekend).
Proof.
  intros Hwd Hwe Hvalid. rewrite forallb_app in Hvalid.
  apply andb_prop in Hvalid as [Vwd Vwe].
  assert (Twd : take 6 weekday = weekday) by (apply take_ge; lia).
  assert (Twe : take 2 weekend = weekend) by (apply take_ge; lia).
  unfold hysen.schedule_payload.
  change (bytearray [1; 16; 0; 10; 0; 12; 24])
    with (Ok (A:=list Z) [1; 16; 0; 10; 0; 12; 24]).
  cbn [mbind result_bind].
  change 6 with (Z.of_nat 6). change 2 with (Z.of_nat 2).
  rewrite (schedule_times_loop weekday 6) by (rewrite ?Twd; (lia || assumption)).
  cbn [mbind result_bind].
  rewrite (schedule_times_loop weekend 2) by (rewrite ?Twe; (lia || assumption)).
  cbn [mbind result_bind].
  rewrite (schedule_temp_loop weekday 6) by (rewrite ?Twd; (lia || assumption)).
  cbn [mbind result_bind].
  rewrite (schedule_temp_loop weekend 2) by (rewrite ?Twe; (lia || assumption)).
  cbn [mbind result_bind]. rewrite Twd, Twe.
  now rewrite <- !app_assoc.
Qed.

(** X9. For six weekday and two weekend entries whose hour, minute and
    doubled temperature are bytes, the schedule command is the seven
    command bytes, the hours and minutes of the weekday then the weekend
    entries, and then their doubled temperatures. *)
Theorem schedule_command_layout (weekday weekend : list hysen.schedule_entry) :
  length weekday = 6%nat -> length weekend = 2%nat ->
  forallb entry_valid (weekday ++ weekend) = true ->
  hysen.schedule_payload weekday weekend =
    Ok ([0x01; 0x10; 0x00; 0x0a; 0x00; 0x0c; 0x18]
        ++ times_of weekday ++ times_of weekend
        ++ temps_of weekday ++ temps_of weekend).
Proof. apply schedule_payload_layout. Qed.

(** X10. The schedule command and the status decode agree: when the
    bytes [set_schedule] writes after its seven command bytes stand at
    offset 23 of a status payload, [get_full_status] decodes the six
    weekday and two weekend entries that were given, for entries whose
    hour, minute and doubled temperature are bytes. *)
Theorem schedule_round_trip (wd we : list (Z * Z * Z)) (pre : list Z) :
  length wd = 6%nat -> length we = 2%nat -> length pre = 23%nat ->
  forallb entry_bytes (wd ++ we) = true ->
  exists cmd,
    hysen.schedule_payload (entry_of <$> wd) (entry_of <$> we) = Ok cmd /\
    let st := status_of (pre ++ drop 7 cmd) in
    hysen.decode_full_status (pre ++ drop 7 cmd) = Ok st /\
    hysen.weekday st = entry_of <$> wd /\
    hysen.weekend st = entry_of <$> we.
Proof.
  intros Hwd Hwe Hpre Hbytes.
  assert (Hvalid : forallb entry_valid ((entry_of <$> wd) ++ (entry_of <$> we))
                   = true).
  { rewrite <- fmap_app. revert Hbytes. generalize (wd ++ we) as l.
    induction l as [|[[h m] t] l IH]; [reflexivity|].
    cbn [forallb fmap list_fmap]. intros Hl. apply andb_prop in Hl as [He Hl].
    rewrite (IH Hl), andb_true_r. unfold entry_valid, entry_of, entry_bytes in *.
    cbn [hysen.start_hour hysen.start_minute hysen.temp fst snd] in *.
    now rewrite int_of_half. }
  eexists. split.
  { apply schedule_payload_layout; [now rewrite length_fmap..|exact Hvalid]. }
  do 7 (destruct wd as [|[[? ?] ?] wd]; try discriminate).
  do 3 (destruct we as [|[[? ?] ?] we]; try discriminate).
  do 24 (destruct pre as [|? pre]; try discriminate).
  cbn [fmap list_fmap times_of temps_of mbind list_bind app drop entry_of
       hysen.start_hour hysen.start_minute hysen.temp fst snd].
  rewrite !int_of_half.
  split; [apply decode_full_status_spec|]. split; reflexivity.
Qed.

(** ** The heating controller's commands *)

Lemma half_double (t : Z) : (half t * Qc_of_Z 2)%Qc = Qc_of_Z t.
Proof.
  apply Qc_is_canon. unfold half, Qc_of_Z. cbn [this Q2Qc Qcmult].
  rewrite !Qred_correct. unfold Qeq. cbn. lia.
Qed.

Lemma int_of_float_lower (q : Qc) (k : Z) :
  (Qc_of_Z k <= q)%Qc -> 0 <= k -> k <= int_of_float q.
Proof.
  unfold Qcle, Qle, int_of_float, Qc_of_Z. cbn. intros Hq Hk.
  apply Z.quot_le_lower_bound; lia.
Qed.

Lemma int_of_float_upper (q : Qc) (k : Z) :
  (q <= Qc_of_Z k)%Qc -> k <= 0 -> int_of_float q <= k.
Proof.
  unfold Qcle, Qle, int_of_float, Qc_of_Z. cbn. intros Hq Hk.
  set (n := Qnum (this q)) in *. set (d := Z.pos (Qden (this q))) in *.
  assert (0 < d) by (unfold d; lia).
  rewrite <- (Z.opp_involutive n), Z.quot_opp_l by lia.
  assert (- k <= - n ÷ d); [|lia].
  apply Z.quot_le_lower_bound; lia.
Qed.

Lemma double_limit_large : 65536 < double_limit.
Proof. reflexivity. Qed.

Lemma int_of_product_of_Z (k : Z) :
  - double_limit < k < double_limit -> int_of_product (Qc_of_Z k) = Ok k.
Proof.
  intros Hk. unfold int_of_product, overflows.
  rewrite !bool_decide_eq_false_2 by (rewrite <- Z2Qc_inj_le; lia).
  cbn [orb]. f_equal. unfold int_of_float, Qc_of_Z. cbn. apply Z.quot_1_r.
Qed.

Section hysen_commands.
Context `{imports}.

Lemma send_request_sent (payload : list Z) (tr : list event) :
  is_bytes payload = true -> len payload + 2 <= 255 ->
  snd (hysen.send_request payload tr)
  = tr ++ [Sent 0x6a (frame_of (calculate_crc16 payload) payload)].
Proof.
  intros Hbytes Hlen. unfold hysen.send_request. run_io.
  rewrite (build_request_frame payload Hbytes Hlen). cbv beta iota.
  unfold transmit. destruct (send_packet _ _ _); [|reflexivity].
  destruct (check_error _); [|reflexivity].
  destruct (decrypt _); reflexivity.
Qed.

(** X11. [set_temp] refuses a temperature of -0.5 or below, or of 128 or
    above, and then sends nothing: with [OverflowError] when the doubled
    temperature is not finite, with [ValueError] otherwise. *)
Theorem set_temp_refuses (temp : Qc) (tr : list event) :
  (temp <= half (-1))%Qc \/ (Qc_of_Z 128 <= temp)%Qc ->
  hysen.set_temp temp tr =
    (Raise (if overflows (temp * Qc_of_Z 2)%Qc
            then OverflowError else byte_range_error),
     tr).
Proof.
  intros Hrange. unfold hysen.set_temp, int_of_product.
  destruct (overflows _); [reflexivity|].
  assert (Hb : is_byte (int_of_float (temp * Qc_of_Z 2)%Qc) = false).
  { assert (H0 : (0 <= Qc_of_Z 2)%Qc) by (apply (proj1 (Z2Qc_inj_le 0 2)); lia).
    destruct Hrange as [Hlo|Hhi].
    - apply (Qcmult_le_compat_r _ _ _ Hlo) in H0. rewrite half_double in H0.
      apply int_of_float_upper in H0; [|lia]. unfold is_byte. lia.
    - apply (Qcmult_le_compat_r _ _ _ Hhi) in H0.
      rewrite <- Z2Qc_inj_mul in H0.
      apply int_of_float_lower in H0; [|lia]. unfold is_byte. lia. }
  unfold hysen.temp_command, bytearray, is_bytes. run_io.
  cbn [forallb]. rewrite Hb. reflexivity.
Qed.

(** X12. For a temperature of [k] half degrees, [k] a byte, [set_temp]
    sends exactly one frame, whose payload ends with the byte [k]. *)
Theorem set_temp_half_steps (k : Z) (tr : list event) :
  0 <= k < 256 ->
  let command := [0x01; 0x06; 0x00; 0x01; 0x00; k] in
  snd (hysen.set_temp (half k) tr)
  = tr ++ [Sent 0x6a (frame_of (calculate_crc16 command) command)].
Proof.
  intros Hk command. pose proof double_limit_large as Hbig.
  unfold hysen.set_temp, hysen.temp_command.
  rewrite half_double, int_of_product_of_Z by lia. run_io. fold command.
  assert (Hb : is_bytes command = true).
  { apply is_bytes_Forall. repeat constructor; lia. }
  unfold bytearray. rewrite Hb. cbv beta iota.
  apply send_request_sent; [exact Hb | vm_compute; discriminate].
Qed.

(** X13. When byte 7 of a status payload is the mode byte [set_mode]
    builds from [auto_mode] in 0..15 and [loop_mode] in 0..14, the status
    reports that [auto_mode], and [loop_mode] plus one. *)
Theorem set_mode_status (auto_mode loop_mode sensor : Z) (p : list Z)
    (st : hysen.full_status) :
  0 <= auto_mode < 16 -> 0 <= loop_mode < 15 ->
  hysen.decode_full_status p = Ok st ->
  index p 7 = index (hysen.mode_command auto_mode loop_mode sensor) 4 ->
  hysen.auto_mode st = auto_mode /\ hysen.loop_mode st = loop_mode + 1.
Proof.
  intros Ha Hl. rewrite decode_full_status_spec.
  destruct (47 <=? len p) eqn:Hlen; [|discriminate].
  apply Z.leb_le in Hlen. intros [= <-].
  rewrite index_byte_at by lia.
  change (index (hysen.mode_command auto_mode loop_mode sensor) 4)
    with (Ok (A:=Z) (Z.shiftl (loop_mode + 1) 4 + auto_mode)).
  intros [= Hp7]. cbn [status_of hysen.auto_mode hysen.loop_mode].
  rewrite Hp7. rewrite Z.shiftl_mul_pow2, Z.shiftr_div_pow2 by lia.
  change 15 with (Z.ones 4). rewrite !Z.land_ones by lia.
  change (2 ^ 4) with 16. split; Z.div_mod_to_equations; lia.
Qed.

(** X14. [set_mode] does not check [auto_mode]: raising it by 16 is the
    same call as raising [loop_mode] by one. *)
Theorem set_mode_carries_over (auto_mode loop_mode sensor : Z)
    (tr : list event) :
  hysen.set_mode (auto_mode + 16) loop_mode sensor tr
  = hysen.set_mode auto_mode (loop_mode + 1) sensor tr.
Proof.
  unfold hysen.set_mode, hysen.mode_command.
  replace (Z.shiftl (loop_mode + 1) 4 + (auto_mode + 16))
    with (Z.shiftl (loop_mode + 1 + 1) 4 + auto_mode); [reflexivity|].
  rewrite !Z.shiftl_mul_pow2 by lia. change (2 ^ 4) with 16. lia.
Qed.

End hysen_commands.

Lemma adj_bytes (k : Z) :
  let hi := Z.land (Z.shiftr k 8) 0xff in
  let lo := Z.land k 0xff in
  0 <= hi < 256 /\ 0 <= lo < 256 /\ hi * 256 + lo = k mod 65536.
Proof.
  intros hi lo. subst hi lo. change 0xff with (Z.ones 8).
  rewrite !Z.land_ones, Z.shiftr_div_pow2 by lia. change (2 ^ 8) with 256.
  repeat split; Z.div_mod_to_equations; lia.
Qed.

Section hysen_advanced.
Context `{imports}.
Variables loop_mode sensor osv dif svh svl fre poweron : Z.

(** X15. For an offset of [k] half degrees whose double is finite,
    [set_advanced] of the heating controller sends exactly one frame, and
    the status decode reads [sensor], [osv], [dif], [svh], [svl], [fre]
    and [poweron] back from a payload that starts with the command's
    bytes. *)
Theorem advanced_settings_round_trip (k : Z) (rest : list Z)
    (st : hysen.full_status) (tr : list event) :
  is_bytes [loop_mode; sensor; osv; dif; svh; svl; fre; poweron] = true ->
  - double_limit < k < double_limit ->
  let command :=
    advanced_command loop_mode sensor osv dif svh svl k fre poweron in
  hysen.decode_full_status (command ++ rest) = Ok st ->
  snd (hysen.set_advanced loop_mode sensor osv dif svh svl (half k) fre
         poweron tr)
  = tr ++ [Sent 0x6a (frame_of (calculate_crc16 command) command)] /\
  hysen.sensor st = sensor /\ hysen.osv st = osv /\ hysen.dif st = dif /\
  hysen.svh st = svh /\ hysen.svl st = svl /\ hysen.fre st = fre /\
  hysen.poweron st = poweron.
Proof.
  intros Hbytes Hk command. rewrite decode_full_status_spec.
  destruct (47 <=? len (command ++ rest)); [|discriminate].
  intros [= <-]. split; [|repeat split].
  unfold hysen.set_advanced.
  rewrite half_double, int_of_product_of_Z by assumption. run_io.
  fold (advanced_command loop_mode sensor osv dif svh svl k fre poweron).
  fold command.
  assert (Hb : is_bytes command = true).
  { unfold command, advanced_command, is_bytes in *. cbn [forallb] in *.
    rewrite !land_255_byte.
    repeat (apply andb_prop in Hbytes as [-> Hbytes]). reflexivity. }
  unfold bytearray. rewrite Hb. cbv beta iota.
  apply send_request_sent; [exact Hb | vm_compute; discriminate].
Qed.

(** X16. The calibration offset written by [set_advanced] is read back
    by the status decode for offsets from -0.5 up to 32767; an offset of
    [k] half degrees with [k] from -65536 to -2 is read back 32768
    degrees too high. *)
Theorem advanced_offset_round_trip (k : Z) (rest : list Z)
    (st : hysen.full_status) :
  -65536 <= k <= 65534 ->
  let command :=
    advanced_command loop_mode sensor osv dif svh svl k fre poweron in
  hysen.decode_full_status (command ++ rest) = Ok st ->
  hysen.room_temp_adj st = if -1 <=? k then half k else half (k + 65536).
Proof.
  intros Hk command. rewrite decode_full_status_spec.
  destruct (47 <=? len (command ++ rest)); [|discriminate].
  intros [= <-]. cbn [status_of hysen.room_temp_adj].
  change (hysen.decode_room_temp_adj _ _)
    with (hysen.decode_room_temp_adj (Z.land (Z.shiftr k 8) 0xff)
            (Z.land k 0xff)).
  destruct (adj_bytes k) as (Hhi & Hlo & Hraw).
  rewrite decode_room_temp_adj_cases by assumption. rewrite Hraw.
  destruct (Z.leb_spec (-1) k) as [Hge|Hlt].
  - destruct (Z.eqb_spec (k mod 65536) 65535) as [He|Hne].
    + assert (k = -1) as -> by (Z.div_mod_to_equations; lia).
      apply Qc_is_canon. reflexivity.
    + f_equal. Z.div_mod_to_equations. lia.
  - destruct (Z.eqb_spec (k mod 65536) 65535) as [He|Hne].
    + Z.div_mod_to_equations. lia.
    + f_equal. Z.div_mod_to_equations. lia.
Qed.

End hysen_advanced.

(** ** The air conditioner, further *)

Lemma spec_sum_insert (l : list Z) :
  forall (i : nat) (e : bool) (x y : Z),
    l !! i = Some x ->
    spec_sum e (<[i := y]> l)
    = spec_sum e l
      + (if Bool.eqb (Nat.even i) e then 1 else 256) * (y - x).
Proof.
  induction l as [|a l IH]; intros i e x y Hx; [discriminate|].
  destruct i as [|i].
  - injection Hx as ->. cbn [spec_sum]. destruct e; cbn; lia.
  - cbn [spec_sum]. change (<[S i := y]> (a :: l)) with (a :: <[i := y]> l).
    cbn [spec_sum]. rewrite (IH i (negb e) x y Hx).
    rewrite Nat.even_succ, <- Nat.negb_even.
    destruct (Nat.even i), e; cbn; lia.
Qed.

(** X17. Replacing one byte of a packet by a different byte changes its
    target-sum checksum, for every target. *)
Theorem checksum_detects_byte_change (l : list Z) (i : nat) (x y target : Z) :
  l !! i = Some x ->
  0 <= x < 256 -> 0 <= y < 256 -> x <> y ->
  tornado._calculate_checksum (<[i := y]> l) target
  <> tornado._calculate_checksum l target.
Proof.
  intros Hx Bx By Hne. unfold tornado._calculate_checksum.
  rewrite !sum_checksum_terms, (spec_sum_insert l i true x y Hx).
  set (s := spec_sum true l).
  set (w := if Bool.eqb (Nat.even i) true then 1 else 256).
  assert (Hw : w = 1 \/ w = 256) by (unfold w; destruct (Bool.eqb _ _); auto).
  change 0xffff with (Z.ones 16). change 0xff with (Z.ones 8).
  rewrite !Z.land_ones, !Z.shiftr_div_pow2 by lia.
  change (2 ^ 16) with 65536. change (2 ^ 8) with 256.
  intros [= H0 H1].
  destruct Hw as [-> | ->]; Z.div_mod_to_equations; lia.
Qed.

Lemma land_1_odd (b : Z) : (Z.land b 1 =? 1) = Z.odd b.
Proof.
  change 1 with (Z.ones 1) at 1. rewrite Z.land_ones by lia.
  change (2 ^ 1) with 2. rewrite <- Z.bit0_mod, Z.bit0_odd.
  now destruct (Z.odd b).
Qed.

Lemma eqb_VStr (v : pyval) (s : string) : eqb v (VStr s) = true -> v = VStr s.
Proof.
  destruct v; try discriminate. cbn. intros Hs.
  now apply String.eqb_eq in Hs as ->.
Qed.

Section tornado_more.
Context `{imports}.

(** X18. [_send_short_payload] with a selector other than 0, 1, 2 or 3
    raises [UnboundLocalError] for [packet] and sends nothing. *)
Theorem send_short_payload_unknown (payload : Z) (tr : list event) :
  payload < 0 \/ 3 < payload ->
  tornado._send_short_payload payload tr
  = (Raise (UnboundLocalError "packet"), tr).
Proof.
  intros Hp. unfold tornado._send_short_payload, tornado.short_packet. run_io.
  replace (payload =? 0) with false by lia.
  replace (payload =? 1) with false by lia.
  replace (payload =? 2) with false by lia.
  now replace (payload =? 3) with false by lia.
Qed.

(** X19. When the status query is answered with a payload that is not
    32 bytes long, [get_state] raises [AssertionError]; the query has been
    sent and nothing is printed. *)
Theorem get_state_wrong_length (p : list Z) (tr tr' : list event) :
  tornado._send_short_payload 1 tr = (Ok p, tr') ->
  len p <> 32 ->
  tornado.get_state tr = (Raise AssertionError, tr') /\
  tr' = tr ++ [Sent 0x6a tornado.GET_STATES].
Proof.
  intros Hsend Hlen. split.
  - unfold tornado.get_state. run_io. rewrite Hsend.
    now rewrite decode_state_other.
  - pose proof (send_short_states tr) as Hs. now rewrite Hsend in Hs.
Qed.

(** X20. Whatever the device answers, [get_state] hands exactly one
    packet to the transport: the status query. *)
Theorem get_state_single_query (tr : list event) :
  sent_packets (snd (tornado.get_state tr))
  = sent_packets tr ++ [tornado.GET_STATES].
Proof. apply get_state_sent. Qed.

(** X21. The [swing_h] entry [get_state] returns is ['OFF'] or
    ['unrecognized value']: it is never ['ON']. *)
Theorem get_state_swing_h_never_on (tr tr' : list event)
    (data : gmap string pyval) :
  tornado.get_state tr = (Ok data, tr') ->
  data !! "swing_h" = Some (VStr "OFF")
  \/ data !! "swing_h" = Some (VStr "unrecognized value").
Proof.
  intros Hget. destruct (get_state_Ok _ _ _ Hget) as (p & _ & ->).
  rewrite lookup_insert_ne by discriminate. unfold state_fields.
  do 6 (rewrite lookup_insert_ne by discriminate).
  rewrite lookup_insert_eq. unfold tornado.decode_swing_h.
  destruct (_ =? 7); [now left | now right].
Qed.

(** X22. A status payload whose bytes 0x19 and 0x1a hold the checksum
    [_calculate_checksum] gives for its first 0x19 bytes is decoded without
    a [checksum fail] line. *)
Theorem get_state_accepts_own_checksum (p : list Z) (tr tr' : list event) :
  len p = 32 ->
  let checksum := expected_checksum p in
  let sealed := <[0x1a%nat := snd checksum]> (<[0x19%nat := fst checksum]> p) in
  tornado._send_short_payload 1 tr = (Ok sealed, tr') ->
  tornado.get_state tr =
    (Ok (<["received_payload" := VBytes sealed]> (state_fields sealed)), tr').
Proof.
  intros Hlen checksum sealed Hsend.
  assert (Hlen' : len sealed = 32).
  { unfold sealed, len. rewrite !length_insert. exact Hlen. }
  assert (Hsum : expected_checksum sealed = checksum).
  { unfold expected_checksum, slice_to. rewrite !slice_in_range by lia.
    unfold sealed. change (Z.to_nat (25 - 0)) with 25%nat.
    change (Z.to_nat 0) with 0%nat. rewrite !drop_0.
    rewrite !take_insert_ge by lia.
    unfold checksum, expected_checksum, slice_to.
    now rewrite slice_in_range by lia. }
  apply get_state_checksum_pass; [exact Hsend | exact Hlen'|].
  rewrite Hsum. unfold byte_at, sealed.
  change (Z.to_nat 25) with 25%nat. change (Z.to_nat 26) with 26%nat.
  rewrite list_lookup_insert_ne by lia.
  rewrite !list_lookup_insert_eq
    by (rewrite ?length_insert; unfold len in Hlen; lia).
  now destruct checksum.
Qed.

(** X23. [get_ac_info] raises [IndexError] on a payload shorter than 14
    bytes; on a longer one it returns [state], true exactly when byte 0x0d
    is odd, together with the payload. *)
Theorem get_ac_info_decodes (p : list Z) (tr tr' : list event) :
  tornado._send_short_payload 0 tr = (Ok p, tr') ->
  tornado.get_ac_info tr =
    (if 14 <=? len p
     then Ok (<["received_payload" := VBytes p]>
                {["state" := VBool (Z.odd (byte_at p 0x0d))]})
     else Raise IndexError,
     tr').
Proof.
  intros Hsend. unfold tornado.get_ac_info, tornado.decode_ac_info. run_io.
  rewrite Hsend. cbv beta iota.
  destruct (Z.leb_spec 14 (len p)) as [Hlen|Hlen].
  - rewrite index_byte_at by lia. cbv beta iota. rewrite land_1_odd.
    unfold truthy. now replace (len p =? 0) with false by lia.
  - pose proof (len_nonneg p). now rewrite index_out_of_range by lia.
Qed.

End tornado_more.

Lemma half_ge (k x : Z) : (Qc_of_Z k <= half x)%Qc <-> 2 * k <= x.
Proof.
  unfold Qcle, half, Qc_of_Z. cbn [this Q2Qc].
  rewrite Qred_correct. unfold Qle. cbn. lia.
Qed.

Lemma decode_set_temp_half (b c : Z) :
  tornado.decode_set_temp b c
  = VFloat (half (2 * (Z.shiftr b 3 + 8)
                  + (if Z.land c 0x80 =? 0 then 0 else 1))).
Proof.
  unfold tornado.decode_set_temp. f_equal. apply Qc_is_canon.
  destruct (Z.land c 128 =? 0); unfold half, Qc_of_Z;
    cbn [this Q2Qc Qcplus]; rewrite !Qred_correct; unfold Qeq; cbn; lia.
Qed.

Lemma swing_v_bits (b : Z) : 0 <= Z.land b 0x7 < 8.
Proof.
  change 0x7 with (Z.ones 3). rewrite Z.land_ones by lia.
  apply Z.mod_pos_bound. reflexivity.
Qed.

Section tornado_tables.
Context `{imports}.

(** X24. The [set_temp] entry [get_state] decodes from a payload of bytes
    is a multiple of one half between 8 and 39.5. *)
Theorem get_state_set_temp_range (p : list Z) (tr tr' : list event) :
  tornado._send_short_payload 1 tr = (Ok p, tr') ->
  len p = 32 -> is_bytes p = true ->
  exists data tr'' k,
    tornado.get_state tr = (Ok data, tr'') /\
    data !! "set_temp" = Some (VFloat (half k)) /\ 16 <= k <= 79.
Proof.
  intros Hsend Hlen Hbytes. unfold tornado.get_state. run_io. rewrite Hsend.
  rewrite decode_state_32 by assumption. eexists _, _, _.
  split; [reflexivity|].
  rewrite lookup_insert_ne by discriminate. unfold state_fields.
  do 7 (rewrite lookup_insert_ne by discriminate).
  rewrite lookup_insert_eq, decode_set_temp_half. split; [reflexivity|].
  destruct (index_in_range p 0x0c ltac:(lia)) as (b & Hb & _).
  pose proof (is_bytes_lookup _ _ _ Hbytes Hb) as Bb.
  unfold byte_at. rewrite Hb. cbn [default from_option]. unfold id.
  rewrite Z.shiftr_div_pow2 by lia. change (2 ^ 3) with 8.
  destruct (_ =? 0); Z.div_mod_to_equations; lia.
Qed.

(** X25. The [swing_v] entry [get_state] returns is one of ['OFF'],
    ['ON'], ['1'] to ['5'] and ['unrecognized value']. *)
Theorem get_state_swing_v_values (tr tr' : list event)
    (data : gmap string pyval) :
  tornado.get_state tr = (Ok data, tr') ->
  exists s, data !! "swing_v" = Some (VStr s) /\
    s ∈ ["OFF"; "ON"; "1"; "2"; "3"; "4"; "5"; "unrecognized value"].
Proof.
  intros Hget. destruct (get_state_Ok _ _ _ Hget) as (p & _ & ->).
  rewrite lookup_insert_ne by discriminate. unfold state_fields.
  do 5 (rewrite lookup_insert_ne by discriminate).
  rewrite lookup_insert_eq. unfold tornado.decode_swing_v.
  pose proof (swing_v_bits (byte_at p 12)) as Hb.
  set (v := Z.land (byte_at p 12) 7) in *.
  assert (Hv : v = 0 \/ v = 1 \/ v = 2 \/ v = 3 \/ v = 4 \/ v = 5 \/ v = 6
               \/ v = 7) by lia.
  clearbody v. clear Hb.
  repeat (destruct Hv as [->|Hv]; [eexists; split; [reflexivity|set_solver]|]).
  subst v. eexists. split; [reflexivity|set_solver].
Qed.

(** X26. The speed bytes [set_advanced] chooses for a speed are decoded
    by [get_state] to that speed. *)
Theorem speed_table_round_trip (speed mode : pyval) (speed_L speed_R : Z) :
  tornado.speed_bytes speed mode = Ok (speed_L, speed_R) ->
  tornado.decode_speed speed_L speed_R = speed.
Proof.
  unfold tornado.speed_bytes.
  repeat match goal with
         | |- context [eqb speed (VStr ?s)] =>
             let E := fresh "E" in
             destruct (eqb speed (VStr s)) eqn:E;
             [apply eqb_VStr in E; subst speed|]
         end;
    try discriminate;
    try (intros [= <- <-]; reflexivity).
  destruct (eqb mode (VStr "F")); [|discriminate].
  intros [= <- <-]. reflexivity.
Qed.

(** X27. The mode byte [set_advanced] chooses for the mode in effect is
    decoded by [get_state] to that mode, with or without the sleep bit. *)
Theorem mode_table_round_trip (args : gmap string pyval) (mode : pyval)
    (mode_1 : Z) :
  tornado.mode_byte args mode = Ok mode_1 ->
  exists v, args !! "mode" = Some v /\
    tornado.decode_mode mode_1 = v /\
    tornado.decode_mode (Z.lor mode_1 0x4) = v.
Proof.
  unfold tornado.mode_byte, getitem.
  destruct (args !! "mode") as [v|]; [|discriminate].
  cbn [mbind result_bind]. intros Hm. exists v. split; [reflexivity|].
  repeat match type of Hm with
         | context [eqb v (VStr ?s)] =>
             let E := fresh "E" in
             destruct (eqb v (VStr s)) eqn:E;
             [apply eqb_VStr in E; subst v; injection Hm as <-;
              split; reflexivity|]
         end.
  discriminate.
Qed.

End tornado_tables.

Section tornado_default_temperature.
Context `{imports}.

(** X28. When no temperature is given and the status payload holds a
    temperature below 16 degrees (byte 0x0c below 64), the A/C
    [set_advanced] fails with [AssertionError]. *)
Theorem set_advanced_low_reading
    (state mode speed swing_v swing_h sleep display health : pyval)
    (p : list Z) (tr tr' : list event) :
  tornado._send_short_payload 1 tr = (Ok p, tr') ->
  len p = 32 ->
  0 <= byte_at p 0x0c < 64 ->
  fst (tornado.set_advanced state mode VNone speed swing_v swing_h sleep
         display health tr) = Raise AssertionError.
Proof.
  intros Hsend Hlen Hb.
  destruct (tornado.get_state tr) as [r tr1] eqn:Hget.
  assert (Hr : r = Ok (<["received_payload" := VBytes p]> (state_fields p))).
  { revert Hget. unfold tornado.get_state. run_io. rewrite Hsend.
    rewrite decode_state_32 by assumption. now intros [= <- _]. }
  subst r.
  set (received := <["received_payload" := VBytes p]> (state_fields p)) in *.
  destruct (fill_missing_total received
              (tornado.initial_args state mode VNone speed swing_v swing_h
                 sleep display health)
              tornado.arg_names (received_complete _ _ _ Hget))
    as [merged Hm].
  rewrite (set_advanced_after_merge _ _ _ _ _ _ _ _ _ _ _ _ _ Hget Hm).
  assert (Ht : merged !! "set_temp"
               = Some (tornado.decode_set_temp (byte_at p 0x0c)
                         (byte_at p 0x0e))).
  { rewrite (merged_set_temp _ _ _ _ _ _ _ _ _ _ _ Hm).
    cbn [effective eqb]. unfold received.
    rewrite lookup_insert_ne by discriminate. unfold state_fields.
    do 7 (rewrite lookup_insert_ne by discriminate).
    apply lookup_insert_eq. }
  rewrite decode_set_temp_half in Ht.
  rewrite (temperature_ok_invalid merged _ _ Ht eq_refl); [reflexivity|].
  intros (H16 & _). apply half_ge in H16.
  rewrite Z.shiftr_div_pow2 in H16 by lia. change (2 ^ 3) with 8 in H16.
  destruct (_ =? 0); Z.div_mod_to_equations; lia.
Qed.

End tornado_default_temperature.

(** ** The further properties on sample inputs *)

(** Six weekday and two weekend entries at 06:30, 20 degrees. *)
Lemma schedule_command_layout_witness :
  let entry := entry_of (6, 30, 40) in
  let weekday := replicate 6 entry in
  let weekend := replicate 2 entry in
  (length weekday = 6%nat /\ length weekend = 2%nat /\
   forallb entry_valid (weekday ++ weekend) = true) /\
  hysen.schedule_payload weekday weekend =
    Ok ([0x01; 0x10; 0x00; 0x0a; 0x00; 0x0c; 0x18]
        ++ times_of weekday ++ times_of weekend
        ++ temps_of weekday ++ temps_of weekend).
Proof.
  intros entry weekday weekend.
  assert (Hvalid : forallb entry_valid (weekday ++ weekend) = true)
    by (vm_compute; reflexivity).
  split; [repeat split; exact Hvalid|].
  apply (schedule_command_layout weekday weekend eq_refl eq_refl Hvalid).
Defined.

Lemma schedule_round_trip_witness :
  let wd := replicate 6 (6, 30, 40) in
  let we := replicate 2 (8, 0, 36) in
  let pre := replicate 23 0 in
  (length wd = 6%nat /\ length we = 2%nat /\ length pre = 23%nat /\
   forallb entry_bytes (wd ++ we) = true) /\
  exists cmd,
    hysen.schedule_payload (entry_of <$> wd) (entry_of <$> we) = Ok cmd /\
    let st := status_of (pre ++ drop 7 cmd) in
    hysen.decode_full_status (pre ++ drop 7 cmd) = Ok st /\
    hysen.weekday st = entry_of <$> wd /\
    hysen.weekend st = entry_of <$> we.
Proof.
  intros wd we pre. split; [repeat split|].
  apply (schedule_round_trip wd we pre eq_refl eq_refl eq_refl eq_refl).
Defined.

Lemma set_temp_refuses_witness :
  let env := sample.environment [] in
  ((Qc_of_Z 128 <= half (-1))%Qc \/ (Qc_of_Z 128 <= Qc_of_Z 128)%Qc) /\
  @hysen.set_temp env (Qc_of_Z 128) [] = (Raise byte_range_error, []).
Proof.
  intros env.
  assert (Hle : (Qc_of_Z 128 <= Qc_of_Z 128)%Qc)
    by (apply (proj1 (Z2Qc_inj_le 128 128)); lia).
  split; [right; exact Hle|].
  apply (@set_temp_refuses env (Qc_of_Z 128) [] (or_intror Hle)).
Defined.

(** At 2^1023 degrees the doubled temperature is not finite. *)
Lemma set_temp_overflow_sample :
  @hysen.set_temp (sample.environment []) (Qc_of_Z (2 ^ 1023)) []
  = (Raise OverflowError, []).
Proof. vm_compute. reflexivity. Qed.

Lemma set_advanced_overflow_sample :
  @hysen.set_advanced (sample.environment []) 0 0 0 0 0 0
    (Qc_of_Z (2 ^ 1023)) 0 0 []
  = (Raise OverflowError, []).
Proof. vm_compute. reflexivity. Qed.

Lemma set_temp_half_steps_witness :
  let env := sample.environment [] in
  0 <= 45 < 256 /\
  snd (@hysen.set_temp env (half 45) [])
  = [Sent 0x6a (frame_of (@calculate_crc16 env [0x01; 0x06; 0x00; 0x01; 0x00; 45])
                  [0x01; 0x06; 0x00; 0x01; 0x00; 45])].
Proof.
  intros env. split; [lia|].
  apply (@set_temp_half_steps env 45 []). lia.
Defined.

Lemma set_mode_status_witness :
  let p := replicate 7 0 ++ [0x11] ++ replicate 39 0 in
  (0 <= 1 < 16 /\ 0 <= 0 < 15 /\
   hysen.decode_full_status p = Ok (status_of p) /\
   index p 7 = index (hysen.mode_command 1 0 0) 4) /\
  hysen.auto_mode (status_of p) = 1 /\ hysen.loop_mode (status_of p) = 0 + 1.
Proof.
  intros p.
  assert (Hp : hysen.decode_full_status p = Ok (status_of p))
    by apply decode_full_status_spec.
  split; [repeat split; (lia || exact Hp)|].
  apply (set_mode_status 1 0 0 p (status_of p)); [lia | lia | exact Hp |].
  reflexivity.
Defined.

Lemma advanced_settings_round_trip_witness :
  let env := sample.environment [] in
  let command := advanced_command 0 1 42 2 35 5 (-1) 0 1 in
  let p := command ++ replicate 30 0 in
  (is_bytes [0; 1; 42; 2; 35; 5; 0; 1] = true /\
   - double_limit < -1 < double_limit /\
   hysen.decode_full_status p = Ok (status_of p)) /\
  snd (@hysen.set_advanced env 0 1 42 2 35 5 (half (-1)) 0 1 [])
  = [] ++ [Sent 0x6a (frame_of (@calculate_crc16 env command) command)] /\
  hysen.sensor (status_of p) = 1 /\ hysen.osv (status_of p) = 42 /\
  hysen.dif (status_of p) = 2 /\ hysen.svh (status_of p) = 35 /\
  hysen.svl (status_of p) = 5 /\ hysen.fre (status_of p) = 0 /\
  hysen.poweron (status_of p) = 1.
Proof.
  intros env command p.
  assert (Hp : hysen.decode_full_status p = Ok (status_of p))
    by apply decode_full_status_spec.
  assert (Hk : - double_limit < -1 < double_limit) by (split; reflexivity).
  split; [split; [reflexivity | split; [exact Hk | exact Hp]]|].
  apply (@advanced_settings_round_trip env 0 1 42 2 35 5 0 1 (-1)
           (replicate 30 0) (status_of p) [] eq_refl Hk Hp).
Defined.

Lemma advanced_offset_round_trip_witness :
  let command := advanced_command 0 1 42 2 35 5 (-2) 0 1 in
  let p := command ++ replicate 30 0 in
  (-65536 <= -2 <= 65534 /\ hysen.decode_full_status p = Ok (status_of p)) /\
  hysen.room_temp_adj (status_of p) = half (-2 + 65536).
Proof.
  intros command p.
  assert (Hp : hysen.decode_full_status p = Ok (status_of p))
    by apply decode_full_status_spec.
  split; [split; [lia | exact Hp]|].
  apply (advanced_offset_round_trip 0 1 42 2 35 5 0 1 (-2) (replicate 30 0)
           (status_of p) ltac:(lia) Hp).
Defined.

Lemma checksum_detects_byte_change_witness :
  ([0x0c; 0x00; 0xbb] !! 2%nat = Some 0xbb /\ 0 <= 0xbb < 256 /\
   0 <= 0xba < 256 /\ 0xbb <> 0xba) /\
  tornado._calculate_checksum (<[2%nat := 0xba]> [0x0c; 0x00; 0xbb]) 0x20017
  <> tornado._calculate_checksum [0x0c; 0x00; 0xbb] 0x20017.
Proof.
  split; [repeat split; (lia || discriminate)|].
  apply (checksum_detects_byte_change [0x0c; 0x00; 0xbb] 2 0xbb 0xba 0x20017
           eq_refl); (lia || discriminate).
Defined.

Lemma send_short_payload_unknown_witness :
  let env := sample.environment [] in
  (4 < 0 \/ 3 < 4) /\
  @tornado._send_short_payload env 4 []
  = (Raise (UnboundLocalError "packet"), []).
Proof.
  intros env. split; [right; lia|].
  apply (@send_short_payload_unknown env 4 []). right. lia.
Defined.

Lemma get_state_wrong_length_witness :
  let env := sample.environment [] in
  (@tornado._send_short_payload env 1 []
   = (Ok [], [Sent 0x6a tornado.GET_STATES]) /\ len (@nil Z) <> 32) /\
  @tornado.get_state env []
  = (Raise AssertionError, [Sent 0x6a tornado.GET_STATES]) /\
  [Sent 0x6a tornado.GET_STATES] = [] ++ [Sent 0x6a tornado.GET_STATES].
Proof.
  intros env. split; [split; [reflexivity | discriminate]|].
  apply (@get_state_wrong_length env [] [] [Sent 0x6a tornado.GET_STATES]
           eq_refl). discriminate.
Defined.

Lemma get_state_swing_h_never_on_witness :
  let env := sample.environment sample.stale_status in
  let data := <["received_payload" := VBytes sample.stale_status]>
                (state_fields sample.stale_status) in
  let tr' := [Sent 0x6a tornado.GET_STATES;
              Printed "checksum fail ['4a', 'b9']"] in
  @tornado.get_state env [] = (Ok data, tr') /\
  (data !! "swing_h" = Some (VStr "OFF")
   \/ data !! "swing_h" = Some (VStr "unrecognized value")).
Proof.
  intros env data tr'. split; [exact sample_get_state|].
  apply (@get_state_swing_h_never_on env [] tr' data sample_get_state).
Defined.

Lemma get_state_accepts_own_checksum_witness :
  let p := sample.stale_status in
  let sealed := <[0x1a%nat := 0xb9]> (<[0x19%nat := 0x4a]> p) in
  let env := sample.environment sealed in
  (len p = 32 /\
   @tornado._send_short_payload env 1 []
   = (Ok sealed, [Sent 0x6a tornado.GET_STATES])) /\
  @tornado.get_state env [] =
    (Ok (<["received_payload" := VBytes sealed]> (state_fields sealed)),
     [Sent 0x6a tornado.GET_STATES]).
Proof.
  intros p sealed env. split; [split; reflexivity|].
  apply (@get_state_accepts_own_checksum env p []
           [Sent 0x6a tornado.GET_STATES] eq_refl eq_refl).
Defined.

Lemma get_ac_info_decodes_witness :
  let env := sample.environment [] in
  @tornado._send_short_payload env 0 []
  = (Ok [], [Sent 0x6a tornado.GET_AC_INFO]) /\
  @tornado.get_ac_info env []
  = (Raise IndexError, [Sent 0x6a tornado.GET_AC_INFO]).
Proof.
  intros env. split; [reflexivity|].
  apply (@get_ac_info_decodes env [] [] [Sent 0x6a tornado.GET_AC_INFO]
           eq_refl).
Defined.

Lemma get_state_set_temp_range_witness :
  let env := sample.environment sample.stale_status in
  let p := sample.stale_status in
  (@tornado._send_short_payload env 1 []
   = (Ok p, [Sent 0x6a tornado.GET_STATES]) /\
   len p = 32 /\ is_bytes p = true) /\
  exists data tr'' k,
    @tornado.get_state env [] = (Ok data, tr'') /\
    data !! "set_temp" = Some (VFloat (half k)) /\ 16 <= k <= 79.
Proof.
  intros env p. split; [repeat split|].
  apply (@get_state_set_temp_range env p [] [Sent 0x6a tornado.GET_STATES]
           eq_refl eq_refl eq_refl).
Defined.

Lemma get_state_swing_v_values_witness :
  let env := sample.environment sample.stale_status in
  let data := <["received_payload" := VBytes sample.stale_status]>
                (state_fields sample.stale_status) in
  let tr' := [Sent 0x6a tornado.GET_STATES;
              Printed "checksum fail ['4a', 'b9']"] in
  @tornado.get_state env [] = (Ok data, tr') /\
  exists s, data !! "swing_v" = Some (VStr s) /\
    s ∈ ["OFF"; "ON"; "1"; "2"; "3"; "4"; "5"; "unrecognized value"].
Proof.
  intros env data tr'. split; [exact sample_get_state|].
  apply (@get_state_swing_v_values env [] tr' data sample_get_state).
Defined.

Lemma speed_table_round_trip_witness :
  tornado.speed_bytes (VStr "Mu") (VStr "F") = Ok (0x40, 0x80) /\
  tornado.decode_speed 0x40 0x80 = VStr "Mu".
Proof.
  split; [reflexivity|].
  apply (speed_table_round_trip (VStr "Mu") (VStr "F") 0x40 0x80 eq_refl).
Defined.

Lemma mode_table_round_trip_witness :
  let args : gmap string pyval := {["mode" := VStr "H"]} in
  tornado.mode_byte args VNone = Ok 0x80 /\
  exists v, args !! "mode" = Some v /\
    tornado.decode_mode 0x80 = v /\
    tornado.decode_mode (Z.lor 0x80 0x4) = v.
Proof.
  intros args.
  assert (Hm : tornado.mode_byte args VNone = Ok 0x80)
    by (vm_compute; reflexivity).
  split; [exact Hm|].
  apply (mode_table_round_trip args VNone 0x80 Hm).
Defined.

Lemma set_advanced_low_reading_witness :
  let p := <[0x0c%nat := 0x00]> sample.stale_status in
  let env := sample.environment p in
  (@tornado._send_short_payload env 1 []
   = (Ok p, [Sent 0x6a tornado.GET_STATES]) /\
   len p = 32 /\ 0 <= byte_at p 0x0c < 64) /\
  fst (@tornado.set_advanced env VNone VNone VNone VNone VNone VNone VNone
         VNone VNone []) = Raise AssertionError.
Proof.
  intros p env.
  assert (Hb : 0 <= byte_at p 0x0c < 64) by (vm_compute; split; discriminate || reflexivity).
  split; [repeat split; apply Hb|].
  apply (@set_advanced_low_reading env VNone VNone VNone VNone VNone VNone
           VNone VNone p [] [Sent 0x6a tornado.GET_STATES] eq_refl eq_refl Hb).
Defined.

(** ** The heating controller's temperature queries *)

Section hysen_queries.
Context `{imports}.

Lemma send_request_ok (payload response reply : list Z) (tr : list event) :
  is_bytes payload = true -> len payload + 2 <= 255 ->
  let frame := frame_of (calculate_crc16 payload) payload in
  send_packet tr 0x6a frame = Ok response ->
  check_error (slice response 0x22 0x24) = Ok tt ->
  decrypt (slice_from response 0x38)
  = Ok (frame_of (calculate_crc16 reply) reply) ->
  hysen.send_request payload tr = (Ok reply, tr ++ [Sent 0x6a frame]).
Proof.
  intros Hbytes Hlen frame Hsend Herr Hdec. unfold hysen.send_request. run_io.
  rewrite (build_request_frame payload Hbytes Hlen). cbv beta iota.
  unfold transmit. fold frame. rewrite Hsend, Herr, Hdec.
  unfold frame_of. rewrite parse_response_framed.
  now rewrite !Z.eqb_refl.
Qed.

(** X29. When the device answers the temperature query with the frame of
    a payload [reply], [get_temp] returns half of byte 5 of [reply], or
    raises [IndexError] when [reply] has fewer than 6 bytes;
    [get_external_temp] returns half of byte 18, or raises [IndexError]
    when [reply] has fewer than 19 bytes. *)
Theorem temperature_queries (response reply : list Z) (tr : list event) :
  let request := [0x01; 0x03; 0x00; 0x00; 0x00; 0x08] in
  let frame := frame_of (calculate_crc16 request) request in
  send_packet tr 0x6a frame = Ok response ->
  check_error (slice response 0x22 0x24) = Ok tt ->
  decrypt (slice_from response 0x38)
  = Ok (frame_of (calculate_crc16 reply) reply) ->
  hysen.get_temp tr =
    (if 6 <=? len reply then Ok (half (byte_at reply 5)) else Raise IndexError,
     tr ++ [Sent 0x6a frame]) /\
  hysen.get_external_temp tr =
    (if 19 <=? len reply then Ok (half (byte_at reply 18)) else Raise IndexError,
     tr ++ [Sent 0x6a frame]).
Proof.
  intros request frame Hsend Herr Hdec.
  assert (Hreq : hysen.send_request request tr
                 = (Ok reply, tr ++ [Sent 0x6a frame])).
  { apply (send_request_ok request response reply tr);
      [reflexivity | vm_compute; discriminate | assumption..]. }
  unfold hysen.get_temp, hysen.get_external_temp, hysen.decode_temp,
    hysen.decode_external_temp.
  change (bytearray [1; 3; 0; 0; 0; 8]) with (Ok (A:=list Z) request).
  run_io. rewrite Hreq. cbv beta iota.
  rewrite !index_if by lia.
  split.
  - destruct (Z.ltb_spec 5 (len reply)), (Z.leb_spec 6 (len reply));
      (reflexivity || lia).
  - destruct (Z.ltb_spec 18 (len reply)), (Z.leb_spec 19 (len reply));
      (reflexivity || lia).
Qed.

End hysen_queries.

Lemma temperature_queries_witness :
  let reply := [0x01; 0x03; 0x10; 0x00; 0x01; 0x28] in
  let body := frame_of (sample.crc16 reply) reply in
  let env := sample.environment body in
  let request := [0x01; 0x03; 0x00; 0x00; 0x00; 0x08] in
  let frame := frame_of (sample.crc16 request) request in
  (@send_packet env [] 0x6a frame = Ok (replicate 0x38 0 ++ body) /\
   @check_error env (slice (replicate 0x38 0 ++ body) 0x22 0x24) = Ok tt /\
   @decrypt env (slice_from (replicate 0x38 0 ++ body) 0x38) = Ok body) /\
  @hysen.get_temp env [] = (Ok (half 0x28), [Sent 0x6a frame]) /\
  @hysen.get_external_temp env [] = (Raise IndexError, [Sent 0x6a frame]).
Proof.
  intros reply body env request frame. split; [repeat split|].
  apply (@temperature_queries env (replicate 0x38 0 ++ body) reply []
           eq_refl eq_refl eq_refl).
Defined.
